(** * L293DBoardSerial: the slave's protocol and timing engine

    A shallow embedding of the Arduino sketch [L293DBoardSerial.ino]
    (revision 1.1.0): the frame decoder ([listenSerial]), the hex codec
    ([charToNib], [readSerialByte]), the dispatcher and relay
    ([processSerial]), the per-channel timing engine (the on-request loop of
    [processSerial] and [checkResetChannels]) and the EEPROM-backed timing
    configuration.

    The sketch keeps everything in global variables; here they are the fields
    of one record, passed explicitly.  An array access outside its array is
    undefined behaviour in C++: every function that touches an array returns
    an [option], with [None] for an access out of range, and the theorems
    show the result is [Some] on the states the sketch can reach.

    Time is a parameter: a function called [t] milliseconds after boot reads
    [millis t] at each of its calls of [millis()], and one run of [loop()]
    takes place at one [t].  The serial port is two byte lists in the state:
    what has arrived and not been read, and what has been written. *)

From Stdlib Require Import ZArith Lia String Ascii HexString.
From stdpp Require Import base option list functions.

Local Open Scope Z_scope.

(** ** Machine integers (AVR: [uint8_t] 8 bits, [int] 16 bits,
       [unsigned long] 32 bits) *)

Definition u8 (z : Z) : Z := z mod 256.
Definition int16 (z : Z) : Z := (z + 32768) mod 65536 - 32768.
Definition ulong (z : Z) : Z := z mod 2 ^ 32.

(** The Arduino core's bit macros:
    [bitRead(value, bit)  (((value) >> (bit)) & 0x01)],
    [bitSet(value, bit)   ((value) |= (1UL << (bit)))],
    [bitClear(value, bit) ((value) &= ~(1UL << (bit)))],
    [bitWrite(value, bit, bitvalue) ((bitvalue) ? bitSet(..) : bitClear(..))]. *)
Definition bitRead (value bit : Z) : Z := Z.land (Z.shiftr value bit) 1.
Definition bitSet (value bit : Z) : Z := Z.lor value (Z.shiftl 1 bit).
Definition bitClear (value bit : Z) : Z := Z.land value (Z.lnot (Z.shiftl 1 bit)).
Definition bitWrite (value bit bitvalue : Z) : Z :=
  if bitvalue =? 0 then bitClear value bit else bitSet value bit.

(** [millis()] at [t] milliseconds after boot: a 32-bit counter that wraps. *)
Definition millis (t : Z) : Z := ulong t.

(** ** Constants of the sketch *)

Definition EEPROM_SET_FLAG : Z := 100.
Definition SERIAL_MAX_DATA_LENGTH : Z := 32.
Definition SERIAL_MSG_BEGIN_CHAR : Z := 60.   (* '<' *)
Definition SERIAL_MSG_END_CHAR : Z := 62.     (* '>' *)
Definition DEFAULT_CHANNEL_ON_TIME : Z := 80.
Definition DEFAULT_MIN_CHANNEL_OFF_TIME : Z := 40.

(** ** Arrays: a load or store outside the array is [None] *)

Definition array_load (a : list Z) (i : Z) : option Z :=
  if 0 <=? i then a !! Z.to_nat i else None.

Definition array_store (a : list Z) (i v : Z) : option (list Z) :=
  if (0 <=? i) && (i <? Z.of_nat (length a)) then Some (<[Z.to_nat i := v]> a)
  else None.

(** ** The globals *)

Record State : Type := mkState {
  serialData : list Z;             (* uint8_t serialData[SERIAL_MAX_DATA_LENGTH] *)
  deviceAddress : Z;               (* uint8_t *)
  serialMessageActive : Z;         (* uint8_t *)
  serialMessageLength : Z;         (* uint8_t *)
  serialNextChar : Z;              (* uint8_t *)
  serialMessageAvailable : Z;      (* uint8_t *)
  serialLastTime : Z;              (* unsigned long *)
  setChannelLastTime : list Z;     (* unsigned long setChannelLastTime[8] *)
  channelOnTime : Z;               (* int *)
  minChannelOffTime : Z;           (* int *)
  channelOnBitmask : Z;            (* uint8_t *)
  eeprom : Z -> Z;                 (* the EEPROM cells *)
  serialRx : list Z;               (* bytes waiting in the serial receive buffer *)
  serialTx : list Z                (* bytes written to the serial port so far *)
}.

Definition set_serialData (v : list Z) (s : State) : State :=
  mkState v (deviceAddress s) (serialMessageActive s) (serialMessageLength s)
    (serialNextChar s) (serialMessageAvailable s) (serialLastTime s)
    (setChannelLastTime s) (channelOnTime s) (minChannelOffTime s)
    (channelOnBitmask s) (eeprom s) (serialRx s) (serialTx s).

Definition set_serialMessageActive (v : Z) (s : State) : State :=
  mkState (serialData s) (deviceAddress s) v (serialMessageLength s)
    (serialNextChar s) (serialMessageAvailable s) (serialLastTime s)
    (setChannelLastTime s) (channelOnTime s) (minChannelOffTime s)
    (channelOnBitmask s) (eeprom s) (serialRx s) (serialTx s).

Definition set_serialMessageLength (v : Z) (s : State) : State :=
  mkState (serialData s) (deviceAddress s) (serialMessageActive s) v
    (serialNextChar s) (serialMessageAvailable s) (serialLastTime s)
    (setChannelLastTime s) (channelOnTime s) (minChannelOffTime s)
    (channelOnBitmask s) (eeprom s) (serialRx s) (serialTx s).

Definition set_serialNextChar (v : Z) (s : State) : State :=
  mkState (serialData s) (deviceAddress s) (serialMessageActive s)
    (serialMessageLength s) v (serialMessageAvailable s) (serialLastTime s)
    (setChannelLastTime s) (channelOnTime s) (minChannelOffTime s)
    (channelOnBitmask s) (eeprom s) (serialRx s) (serialTx s).

Definition set_serialMessageAvailable (v : Z) (s : State) : State :=
  mkState (serialData s) (deviceAddress s) (serialMessageActive s)
    (serialMessageLength s) (serialNextChar s) v (serialLastTime s)
    (setChannelLastTime s) (channelOnTime s) (minChannelOffTime s)
    (channelOnBitmask s) (eeprom s) (serialRx s) (serialTx s).

Definition set_serialLastTime (v : Z) (s : State) : State :=
  mkState (serialData s) (deviceAddress s) (serialMessageActive s)
    (serialMessageLength s) (serialNextChar s) (serialMessageAvailable s) v
    (setChannelLastTime s) (channelOnTime s) (minChannelOffTime s)
    (channelOnBitmask s) (eeprom s) (serialRx s) (serialTx s).

Definition set_setChannelLastTime (v : list Z) (s : State) : State :=
  mkState (serialData s) (deviceAddress s) (serialMessageActive s)
    (serialMessageLength s) (serialNextChar s) (serialMessageAvailable s)
    (serialLastTime s) v (channelOnTime s) (minChannelOffTime s)
    (channelOnBitmask s) (eeprom s) (serialRx s) (serialTx s).

Definition set_channelOnTime (v : Z) (s : State) : State :=
  mkState (serialData s) (deviceAddress s) (serialMessageActive s)
    (serialMessageLength s) (serialNextChar s) (serialMessageAvailable s)
    (serialLastTime s) (setChannelLastTime s) v (minChannelOffTime s)
    (channelOnBitmask s) (eeprom s) (serialRx s) (serialTx s).

Definition set_minChannelOffTime (v : Z) (s : State) : State :=
  mkState (serialData s) (deviceAddress s) (serialMessageActive s)
    (serialMessageLength s) (serialNextChar s) (serialMessageAvailable s)
    (serialLastTime s) (setChannelLastTime s) (channelOnTime s) v
    (channelOnBitmask s) (eeprom s) (serialRx s) (serialTx s).

Definition set_channelOnBitmask (v : Z) (s : State) : State :=
  mkState (serialData s) (deviceAddress s) (serialMessageActive s)
    (serialMessageLength s) (serialNextChar s) (serialMessageAvailable s)
    (serialLastTime s) (setChannelLastTime s) (channelOnTime s)
    (minChannelOffTime s) v (eeprom s) (serialRx s) (serialTx s).

Definition set_eeprom (v : Z -> Z) (s : State) : State :=
  mkState (serialData s) (deviceAddress s) (serialMessageActive s)
    (serialMessageLength s) (serialNextChar s) (serialMessageAvailable s)
    (serialLastTime s) (setChannelLastTime s) (channelOnTime s)
    (minChannelOffTime s) (channelOnBitmask s) v (serialRx s) (serialTx s).

Definition set_serialRx (v : list Z) (s : State) : State :=
  mkState (serialData s) (deviceAddress s) (serialMessageActive s)
    (serialMessageLength s) (serialNextChar s) (serialMessageAvailable s)
    (serialLastTime s) (setChannelLastTime s) (channelOnTime s)
    (minChannelOffTime s) (channelOnBitmask s) (eeprom s) v (serialTx s).

Definition set_serialTx (v : list Z) (s : State) : State :=
  mkState (serialData s) (deviceAddress s) (serialMessageActive s)
    (serialMessageLength s) (serialNextChar s) (serialMessageAvailable s)
    (serialLastTime s) (setChannelLastTime s) (channelOnTime s)
    (minChannelOffTime s) (channelOnBitmask s) (eeprom s) (serialRx s) v.

(** ** The collaborators: EEPROM and the serial port *)

(** [EEPROM.write(idx, val)] stores a [uint8_t]; [EEPROM.read(idx)] returns one. *)
Definition EEPROM_write (idx val : Z) (s : State) : State :=
  set_eeprom (<[idx := u8 val]> (eeprom s)) s.

Definition EEPROM_read (idx : Z) (s : State) : Z := u8 (eeprom s idx).

(** [Serial.write(buf, len)]: the first [len] bytes of [buf] go out. *)
Definition Serial_write (buf : list Z) (len : Z) (s : State) : option State :=
  if (0 <=? len) && (len <=? Z.of_nat (length buf))
  then Some (set_serialTx (serialTx s ++ take (Z.to_nat len) buf) s)
  else None.

(** [Serial.println(F(""))]: carriage return, line feed. *)
Definition Serial_println (s : State) : State :=
  set_serialTx (serialTx s ++ [13; 10]) s.

(** The bytes of a string literal, to write frames as text. *)
Definition bytes (s : string) : list Z :=
  map (fun a => Z.of_N (N_of_ascii a)) (list_ascii_of_string s).
Arguments bytes s%_string.

(** The transmitter puts [bs] on the line. *)
Definition receive (bs : list Z) (s : State) : State :=
  set_serialRx (serialRx s ++ bs) s.

(** ** The sketch *)

(** [for (i = 0; i < n; i++) body], from index [i]. *)
Fixpoint for_upto (n : nat) (i : Z) (body : Z -> State -> option State)
    (s : State) : option State :=
  match n with
  | O => Some s
  | S n' => s' ← body i s; for_upto n' (i + 1) body s'
  end.

Definition listenSerialNewChar (leaveCharsAtEnd : Z) (s : State) : option State :=
  if serialMessageLength s >=? SERIAL_MAX_DATA_LENGTH - leaveCharsAtEnd then Some s
  else
    let s1 := set_serialMessageLength (u8 (serialMessageLength s + 1)) s in
    d ← array_store (serialData s1) (serialMessageLength s1 - 1) (serialNextChar s1);
    Some (set_serialData d s1).

(** One turn of the [while (Serial.available())] loop of [listenSerial], for
    the byte [c] that [Serial.read()] returns; the flag of the result says
    whether the turn left the function by its [return]. *)
Definition listenSerial_body (t c : Z) (s : State) : option (bool * State) :=
  let s1 := set_serialLastTime (millis t) s in
  let s2 := set_serialNextChar (u8 c) s1 in
  if negb (serialMessageActive s2 =? 0) then
    if serialNextChar s2 =? SERIAL_MSG_END_CHAR then
      s3 ← listenSerialNewChar 0 s2;
      Some (true, set_serialMessageAvailable 1 (set_serialMessageActive 0 s3))
    else
      s3 ← listenSerialNewChar 1 s2;
      Some (false, s3)
  else
    if serialNextChar s2 =? SERIAL_MSG_BEGIN_CHAR then
      s3 ← listenSerialNewChar 1 s2;
      Some (false, set_serialMessageActive 1 s3)
    else Some (false, s2).

(** The loop itself, over the bytes [rx] waiting in the receive buffer. *)
Fixpoint listenSerial_while (t : Z) (rx : list Z) (s : State)
    : option (bool * State) :=
  match rx with
  | [] => Some (false, s)
  | c :: rx' =>
      '(returned, s') ← listenSerial_body t c (set_serialRx rx' s);
      if returned : bool then Some (true, s') else listenSerial_while t rx' s'
  end.

Definition listenSerial (t : Z) (s : State) : option State :=
  '(returned, s1) ← listenSerial_while t (serialRx s) s;
  if returned : bool then Some s1
  else if ulong (millis t - serialLastTime s1) >? 1000
       then Some (set_serialMessageLength 0 (set_serialMessageActive 0 s1))
       else Some s1.

Definition charToNib (ch : Z) : Z :=
  if (ch >=? 48) && (ch <=? 57) then u8 (ch - 48)
  else if (ch >=? 65) && (ch <=? 70) then u8 (ch - 65 + 10)
  else if (ch >=? 97) && (ch <=? 102) then u8 (ch - 97 + 10)
  else 0.

Definition readSerialByte (index : Z) (s : State) : option Z :=
  c1 ← array_load (serialData s) index;
  c2 ← array_load (serialData s) (index + 1);
  let n1 := charToNib c1 in
  let n2 := charToNib c2 in
  Some (u8 (n1 * 16 + n2)).

Definition setChannelOnTime (onTimeCs : Z) (s : State) : State :=
  let s1 := EEPROM_write 0 EEPROM_SET_FLAG s in
  let s2 := EEPROM_write 1 onTimeCs s1 in
  set_channelOnTime (int16 (onTimeCs * 10)) s2.

Definition setMinChannelOffTime (minOffTimeCs : Z) (s : State) : State :=
  let s1 := EEPROM_write 2 EEPROM_SET_FLAG s in
  let s2 := EEPROM_write 3 minOffTimeCs s1 in
  set_minChannelOffTime (int16 (minOffTimeCs * 10)) s2.

Definition loadChannelOnTime (s : State) : State :=
  if EEPROM_read 0 s =? EEPROM_SET_FLAG
  then set_channelOnTime (int16 (EEPROM_read 1 s * 10)) s
  else set_channelOnTime DEFAULT_CHANNEL_ON_TIME s.

Definition loadMinChannelOffTime (s : State) : State :=
  if EEPROM_read 2 s =? EEPROM_SET_FLAG
  then set_minChannelOffTime (int16 (EEPROM_read 3 s * 10)) s
  else set_minChannelOffTime DEFAULT_MIN_CHANNEL_OFF_TIME s.

(** One turn of the [for] loop of [processSerial]: the on-request for
    channel [i] when bit [i] of [cmd] is set.  The [int] [minChannelOffTime]
    is converted to [unsigned long] for the comparison. *)
Definition processSerial_body (t cmd i : Z) (s : State) : option State :=
  if negb (bitRead cmd i =? 0) && (bitRead (channelOnBitmask s) i =? 0) then
    last ← array_load (setChannelLastTime s) i;
    if ulong (millis t - last) >=? ulong (minChannelOffTime s) then
      let s1 := set_channelOnBitmask (u8 (bitWrite (channelOnBitmask s) i 1)) s in
      l ← array_store (setChannelLastTime s1) i (millis t);
      Some (set_setChannelLastTime l s1)
    else Some s
  else Some s.

(** The two configuration commands of [processSerial]. *)
Definition processSerial_config (addr cmd : Z) (s : State) : State :=
  let s1 := if addr =? 255 then setChannelOnTime cmd s else s in
  if addr =? 254 then setMinChannelOffTime cmd s1 else s1.

(** The end of [processSerial]: the message goes to the next slave and the
    buffer is free again. *)
Definition processSerial_relay (s : State) : option State :=
  s1 ← Serial_write (serialData s) (serialMessageLength s) s;
  let s2 := Serial_println s1 in
  Some (set_serialMessageLength 0 (set_serialMessageAvailable 0 s2)).

Definition processSerial (t : Z) (s : State) : option State :=
  if serialMessageAvailable s =? 0 then Some s
  else
    addr ← readSerialByte 1 s;
    cmd ← readSerialByte 3 s;
    let s1 := processSerial_config addr cmd s in
    s2 ← (if addr =? deviceAddress s1
          then for_upto 8 0 (processSerial_body t cmd) s1
          else Some s1);
    processSerial_relay s2.

(** One turn of the [for] loop of [checkResetChannels]. *)
Definition checkResetChannels_body (t i : Z) (s : State) : option State :=
  if negb (bitRead (channelOnBitmask s) i =? 0) then
    last ← array_load (setChannelLastTime s) i;
    if ulong (millis t - last) >? ulong (channelOnTime s) then
      let s1 := set_channelOnBitmask (u8 (bitWrite (channelOnBitmask s) i 0)) s in
      l ← array_store (setChannelLastTime s1) i (millis t);
      Some (set_setChannelLastTime l s1)
    else Some s
  else Some s.

Definition checkResetChannels (t : Z) (s : State) : option State :=
  for_upto 8 0 (checkResetChannels_body t) s.

(** [setup()], on a device compiled with [DEVICE_ADDRESS = addr] whose
    EEPROM holds [e]: the globals start at zero. *)
Definition setup (addr : Z) (e : Z -> Z) : State :=
  let s0 := mkState (replicate 32 0) (u8 addr) 0 0 0 0 0 (replicate 8 0)
                    0 0 0 e [] [] in
  loadMinChannelOffTime (loadChannelOnTime s0).

(** [loop()] with [HARDWARE_TEST = 0], at [t] milliseconds after boot.
    [updateActiveChannels] only drives the shield with [channelOnBitmask]
    and changes none of the globals. *)
Definition loop (t : Z) (s : State) : option State :=
  s1 ← listenSerial t s;
  s2 ← processSerial t s1;
  checkResetChannels t s2.

(** ** The channel engine as the specification words it

    A channel is an energized flag with the time of its last transition;
    [requestOn] and [pollExpire] are the two operations of the
    specification's ChannelTimingEngine, written from its text, to be
    compared with the loops of the sketch. *)

Definition ChannelState : Type := bool * Z.

Definition requestOn (now minOff : Z) (c : ChannelState) : ChannelState :=
  if negb c.1 && (ulong (now - c.2) >=? minOff) then (true, now) else c.

Definition pollExpire (now onTime : Z) (c : ChannelState) : ChannelState :=
  if c.1 && (ulong (now - c.2) >? onTime) then (false, now) else c.

(** ** Views of the globals *)

(** Channel [i] of the sketch: bit [i] of [channelOnBitmask] and
    [setChannelLastTime[i]]. *)
Definition channel (s : State) (i : Z) : ChannelState :=
  (Z.testbit (channelOnBitmask s) i, setChannelLastTime s !!! Z.to_nat i).

(** A state that differs from [s] in the two channel globals only. *)
Definition with_channels (m : Z) (l : list Z) (s : State) : State :=
  set_setChannelLastTime l (set_channelOnBitmask m s).

Definition only_channels (s s' : State) : Prop :=
  exists m l, s' = with_channels m l s.

(** The frame held in the buffer: its first [serialMessageLength] bytes. *)
Definition frame_of (s : State) : list Z :=
  take (Z.to_nat (serialMessageLength s)) (serialData s).

(** What the end of [listenSerial] does to a frame in progress once the
    line has been silent for more than a second. *)
Definition timeout_reset (t : Z) (s : State) : State :=
  if ulong (millis t - serialLastTime s) >? 1000
  then set_serialMessageLength 0 (set_serialMessageActive 0 s)
  else s.

(** What [processSerial_relay] leaves: the frame and a line end sent on,
    the buffer free. *)
Definition relayed (s : State) : State :=
  set_serialMessageLength 0 (set_serialMessageAvailable 0
    (set_serialTx (serialTx s ++ frame_of s ++ [13; 10]) s)).

(** States that agree on everything but the decoder's own globals
    ([serialData], the three message variables, [serialNextChar],
    [serialLastTime]) and the receive buffer. *)
Definition same_engine (s s' : State) : Prop :=
  deviceAddress s' = deviceAddress s /\
  setChannelLastTime s' = setChannelLastTime s /\
  channelOnTime s' = channelOnTime s /\
  minChannelOffTime s' = minChannelOffTime s /\
  channelOnBitmask s' = channelOnBitmask s /\
  eeprom s' = eeprom s /\
  serialTx s' = serialTx s.

(** ** Invariants *)

(** The channel globals: eight time stamps and an 8-bit mask. *)
Definition chan_ok (s : State) : Prop :=
  length (setChannelLastTime s) = 8%nat /\ 0 <= channelOnBitmask s < 256.

(** The decoder between two bytes of the line. *)
Definition dec_ok (s : State) : Prop :=
  length (serialData s) = 32%nat /\
  0 <= serialMessageLength s <= 31 /\
  (serialMessageActive s = 0 -> serialMessageLength s = 0).

(** The timing configuration as the EEPROM commands can leave it. *)
Definition cfg_ok (s : State) : Prop :=
  0 <= channelOnTime s <= 2550 /\ 0 <= minChannelOffTime s <= 2550.

(** What holds of the globals between two runs of [loop()]. *)
Definition inv (s : State) : Prop :=
  dec_ok s /\ serialMessageAvailable s = 0 /\ chan_ok s /\ cfg_ok s.

(** ** Runs *)

(** [loop()] run again and again with nothing arriving on the line: the
    first cycle [d] milliseconds after [t], the next one after the next gap
    of the list, and so on. *)
Fixpoint idle_cycles (t : Z) (gaps : list Z) (s : State) : option State :=
  match gaps with
  | [] => Some s
  | d :: gaps' => s' ← loop (t + d) s; idle_cycles (t + d) gaps' s'
  end.



(** An erased EEPROM reads 0xFF everywhere. *)
Definition erased : Z -> Z := fun _ => 255.

(** A channel that has been on since the clock read 100. *)
Definition channel2_on : State :=
  with_channels 4 [0; 0; 100; 0; 0; 0; 0; 0] (setup 0 erased).

(** The character code of an [ascii]. *)
Definition code (a : ascii) : Z := Z.of_N (N_of_ascii a).

(** The state [listenSerial] leaves at time [t] when the text [frame]
    arrives in state [s]. *)
Definition after_listen (t : Z) (frame : string) (s : State) : State :=
  default s (listenSerial t (receive (bytes frame) s)).
Arguments after_listen t frame%_string s.

(** ** The shield: the hardware calls of the sketch, as a trace *)

Inductive HwOp : Type :=
  | PinMode (pin mode : Z)
  | DigitalWrite (pin level : Z)
  | ShiftOut (dataPin clockPin bitOrder val : Z)
  | AnalogWrite (pin val : Z)
  | DelayMicroseconds (us : Z)
  | Delay (ms : Z).

Definition MOTORLATCH : Z := 12.
Definition MOTORCLK : Z := 4.
Definition MOTORENABLE : Z := 7.
Definition MOTORDATA : Z := 8.

Definition MOTOR1_A : Z := 2.
Definition MOTOR1_B : Z := 3.
Definition MOTOR2_A : Z := 1.
Definition MOTOR2_B : Z := 4.
Definition MOTOR3_A : Z := 5.
Definition MOTOR3_B : Z := 7.
Definition MOTOR4_A : Z := 0.
Definition MOTOR4_B : Z := 6.

Definition MOTOR1_PWM : Z := 11.
Definition MOTOR2_PWM : Z := 3.
Definition MOTOR3_PWM : Z := 6.
Definition MOTOR4_PWM : Z := 5.

(** The Arduino core's [OUTPUT], [LOW], [HIGH] and [MSBFIRST]. *)
Definition OUTPUT : Z := 1.
Definition LOW : Z := 0.
Definition HIGH : Z := 1.
Definition MSBFIRST : Z := 1.

Definition motorBus : list Z :=
  [MOTOR1_A; MOTOR1_B; MOTOR2_A; MOTOR2_B; MOTOR3_A; MOTOR3_B; MOTOR4_A; MOTOR4_B].

Definition motorPwmPins : list Z :=
  [MOTOR1_PWM; MOTOR2_PWM; MOTOR3_PWM; MOTOR4_PWM].

(** The remaining globals of the sketch (the two counters of the hardware
    test), the two [static] variables of [shiftWriteAll], and the hardware
    calls made so far. *)
Record Board : Type := mkBoard {
  testHardwareSolenoidCount : Z;   (* uint8_t *)
  testHardwarePauseCount : Z;      (* uint8_t *)
  shift_register_initialized : Z;  (* static int *)
  latch_copy : Z;                  (* static int *)
  hw : list HwOp
}.

Definition hw_call (ops : list HwOp) (b : Board) : Board :=
  mkBoard (testHardwareSolenoidCount b) (testHardwarePauseCount b)
    (shift_register_initialized b) (latch_copy b) (hw b ++ ops).

Definition set_latch_copy (v : Z) (b : Board) : Board :=
  mkBoard (testHardwareSolenoidCount b) (testHardwarePauseCount b)
    (shift_register_initialized b) v (hw b).

Definition set_shift_register_initialized (v : Z) (b : Board) : Board :=
  mkBoard (testHardwareSolenoidCount b) (testHardwarePauseCount b)
    v (latch_copy b) (hw b).

Definition set_testHardwareSolenoidCount (v : Z) (b : Board) : Board :=
  mkBoard v (testHardwarePauseCount b)
    (shift_register_initialized b) (latch_copy b) (hw b).

Definition set_testHardwarePauseCount (v : Z) (b : Board) : Board :=
  mkBoard (testHardwareSolenoidCount b) v
    (shift_register_initialized b) (latch_copy b) (hw b).

(** What [shiftWriteAll] does on its first call only. *)
Definition shiftWriteAll_init : list HwOp :=
  [PinMode MOTORLATCH OUTPUT; PinMode MOTORENABLE OUTPUT;
   PinMode MOTORDATA OUTPUT; PinMode MOTORCLK OUTPUT;
   DigitalWrite MOTORDATA LOW; DigitalWrite MOTORLATCH LOW;
   DigitalWrite MOTORCLK LOW; DigitalWrite MOTORENABLE LOW].

(** [shiftOut] takes its value as a [uint8_t]. *)
Definition shiftWriteAll (outputBitmask : Z) (b : Board) : Board :=
  let b1 :=
    if shift_register_initialized b =? 0
    then set_shift_register_initialized 1
           (set_latch_copy 0 (hw_call shiftWriteAll_init b))
    else b in
  let b2 := set_latch_copy outputBitmask b1 in
  hw_call [ShiftOut MOTORDATA MOTORCLK MSBFIRST (u8 (latch_copy b2));
           DelayMicroseconds 5; DigitalWrite MOTORLATCH HIGH;
           DelayMicroseconds 5; DigitalWrite MOTORLATCH LOW] b2.

(** The first loop of [allChannelOutput], from index [i]: bit [motorBus[i]]
    of [motorChannels] takes the value of bit [i] of [outputChannels]. *)
Fixpoint allChannelOutput_bus (n : nat) (i outputChannels motorChannels : Z)
    : option Z :=
  match n with
  | O => Some motorChannels
  | S n' =>
      bit ← array_load motorBus i;
      allChannelOutput_bus n' (i + 1) outputChannels
        (u8 (bitWrite motorChannels bit (bitRead outputChannels i)))
  end.

(** The second loop of [allChannelOutput], from index [i]. *)
Fixpoint allChannelOutput_pwm (n : nat) (i outputChannels : Z)
    : option (list HwOp) :=
  match n with
  | O => Some []
  | S n' =>
      pin ← array_load motorPwmPins i;
      ops ← allChannelOutput_pwm n' (i + 1) outputChannels;
      if negb (bitRead outputChannels (2 * i) =? 0)
         || negb (bitRead outputChannels (2 * i + 1) =? 0)
      then Some (AnalogWrite pin 255 :: ops)
      else Some (AnalogWrite pin 0 :: ops)
  end.

(** [allChannelOutput]; its local [motorChannels] is not initialised, [junk]
    is the value it happens to hold. *)
Definition allChannelOutput (outputChannels junk : Z) (b : Board)
    : option Board :=
  motorChannels ← allChannelOutput_bus 8 0 outputChannels (u8 junk);
  let b1 := shiftWriteAll motorChannels b in
  ops ← allChannelOutput_pwm 4 0 outputChannels;
  Some (hw_call ops b1).

Definition updateActiveChannels (junk : Z) (s : State) (b : Board)
    : option Board :=
  allChannelOutput (channelOnBitmask s) junk b.

Definition hardwareTestLoop (junk : Z) (b : Board) : option Board :=
  b1 ← (if testHardwarePauseCount b =? 0
        then allChannelOutput (u8 (Z.shiftl 1 (testHardwareSolenoidCount b))) junk b
        else allChannelOutput 0 junk b);
  let b2 := set_testHardwarePauseCount (u8 (testHardwarePauseCount b1 + 1)) b1 in
  let b3 :=
    if testHardwarePauseCount b2 =? 10 then
      let b4 := set_testHardwarePauseCount 0 b2 in
      let b5 := set_testHardwareSolenoidCount
                  (u8 (testHardwareSolenoidCount b4 + 1)) b4 in
      if testHardwareSolenoidCount b5 =? 8
      then hw_call [Delay 3000] (set_testHardwareSolenoidCount 0 b5)
      else b5
    else b2 in
  Some (hw_call [Delay 100] b3).

(** The globals of [Board] after [setup()]. *)
Definition board_setup : Board := mkBoard 0 0 0 0 [].

(** The whole of [loop()], for either value of [HARDWARE_TEST]: in normal
    operation the three steps of [loop] above and [updateActiveChannels]. *)
Definition sketch_loop (HARDWARE_TEST t junk : Z) (sb : State * Board)
    : option (State * Board) :=
  if negb (HARDWARE_TEST =? 0) then
    b' ← hardwareTestLoop junk sb.2; Some (sb.1, b')
  else
    s' ← loop t sb.1;
    b' ← updateActiveChannels junk s' sb.2;
    Some (s', b').

(** [n] runs of [hardwareTestLoop]; run [k] finds [junk k] in the local of
    [allChannelOutput]. *)
Fixpoint hardwareTest_runs (n : nat) (junk : nat -> Z) (b : Board)
    : option Board :=
  match n with
  | O => Some b
  | S n' => b' ← hardwareTest_runs n' junk b; hardwareTestLoop (junk n') b'
  end.

(** The byte of the last [shiftOut] of a trace, if any. *)
Definition last_shifted (ops : list HwOp) : option Z :=
  list.last (omap (fun op => match op with
                        | ShiftOut _ _ _ v => Some v
                        | _ => None
                        end) ops).

(** The last value written to a PWM pin, if any. *)
Definition last_pwm (pin : Z) (ops : list HwOp) : option Z :=
  list.last (omap (fun op => match op with
                        | AnalogWrite p v => if p =? pin then Some v else None
                        | _ => None
                        end) ops).

(** What the PWM pin of a pair of channels is set to: fully on if either
    channel of the pair is on. *)
Definition pwm_value (outputChannels i : Z) : Z :=
  if Z.testbit outputChannels (2 * i) || Z.testbit outputChannels (2 * i + 1)
  then 255 else 0.

(** The hardware calls of one [allChannelOutput] once the shift register is
    set up, for the byte [m] shifted out. *)
Definition output_ops (outputChannels m : Z) : list HwOp :=
  [ShiftOut MOTORDATA MOTORCLK MSBFIRST m;
   DelayMicroseconds 5; DigitalWrite MOTORLATCH HIGH;
   DelayMicroseconds 5; DigitalWrite MOTORLATCH LOW;
   AnalogWrite MOTOR1_PWM (pwm_value outputChannels 0);
   AnalogWrite MOTOR2_PWM (pwm_value outputChannels 1);
   AnalogWrite MOTOR3_PWM (pwm_value outputChannels 2);
   AnalogWrite MOTOR4_PWM (pwm_value outputChannels 3)].

(** The milliseconds spent in [delay] over a trace. *)
Definition delayed (ops : list HwOp) : Z :=
  foldr (fun op acc => match op with Delay ms => ms + acc | _ => acc end) 0 ops.

(** The number of pin set-up calls of a trace. *)
Definition pin_setups (ops : list HwOp) : nat :=
  foldr (fun op n => match op with PinMode _ _ => S n | _ => n end) O ops.


(** [loop()] run again and again with traffic on the line: each cycle runs
    [d] milliseconds after the one before, and the bytes [bs] have arrived
    in between. *)
Fixpoint cycles (t : Z) (traffic : list (Z * list Z)) (s : State)
    : option State :=
  match traffic with
  | [] => Some s
  | (d, bs) :: traffic' =>
      s' ← loop (t + d) (receive bs s); cycles (t + d) traffic' s'
  end.

Definition duration (traffic : list (Z * list Z)) : Z :=
  foldr (fun c acc => c.1 + acc) 0 traffic.

(** ** The line

    What bytes that are no begin marker leave of themselves in a listening
    decoder: [serialNextChar] holds the last of them and [serialLastTime]
    the time of the cycle that read them. *)
Definition noise_seen (t : Z) (noise : list Z) (s : State) : State :=
  match list.last noise with
  | None => s
  | Some c => set_serialNextChar (u8 c) (set_serialLastTime (millis t) s)
  end.

(** Frames on the line the way [Serial.write] and [Serial.println] of
    [processSerial] put them there, and [sendMotorShieldCommand] of the
    master: the begin marker, the body, the end marker, CR, LF. *)
Definition println_frames (fs : list (list Z)) : list Z :=
  concat (map (fun body => 60 :: body ++ [62; 13; 10]) fs).

(** ** The master sketches

    [L293DMasterTest.ino] and [L293DMasterLcdRotary.ino] talk to the slaves
    through a [SoftwareSerial].  [swSerial.print(n, HEX)] is the Arduino
    core's [Print::printNumber]: the digits of [n] in the base, most
    significant first, letters in upper case, at least one digit. *)
Definition printNumber_digit (c : Z) : Z :=
  if c <? 10 then c + 48 else c + 65 - 10.

(** The [do ... while (n)] loop of [printNumber]; its buffer has room for
    [fuel] digits. *)
Fixpoint printNumber_loop (fuel : nat) (n base : Z) (str : list Z) : list Z :=
  match fuel with
  | O => str
  | S fuel' =>
      let c := n mod base in
      let n' := n / base in
      let str' := printNumber_digit c :: str in
      if n' =? 0 then str' else printNumber_loop fuel' n' base str'
  end.

Definition printNumber (n base : Z) : list Z :=
  printNumber_loop 32 (ulong n) (if base <? 2 then 10 else base) [].

Definition HEX : Z := 16.

(** The bytes that [sendMotorShieldCommand] puts on the line (the function
    is the same in both master sketches). *)
Definition sendMotorShieldCommand (boardNum pdata : Z) : list Z :=
  let boardNum := u8 boardNum in
  let pdata := u8 pdata in
  [60] ++ (if boardNum <? 16 then [48] else []) ++ printNumber boardNum HEX ++
  (if pdata <? 16 then [48] else []) ++ printNumber pdata HEX ++
  [62] ++ [13; 10].

(** What a master does on the line: bytes and pauses. *)
Inductive LineOp : Type :=
  | Tx (c : Z)
  | Pause (ms : Z).

(** [1 << channelIndex] is an [int]; the parameter of
    [sendMotorShieldCommand] keeps its low eight bits. *)
Definition playNote (slaveAddr channelIndex : Z) : list LineOp :=
  map Tx (sendMotorShieldCommand slaveAddr (Z.shiftl 1 (u8 channelIndex))) ++
  [Pause 80] ++
  map Tx (sendMotorShieldCommand slaveAddr 0) ++
  [Pause 500].

Definition testNote (slaveAddr channelIndex : Z) : list LineOp :=
  playNote slaveAddr channelIndex ++ playNote slaveAddr channelIndex ++
  playNote slaveAddr channelIndex.

(** The bytes of a trace, pauses dropped. *)
Definition sent (ops : list LineOp) : list Z :=
  omap (fun op => match op with Tx c => Some c | Pause _ => None end) ops.

(** The globals of [L293DMasterLcdRotary.ino] that the rotary encoder and
    the display use. *)
Definition MOTOR_SHIELD_COUNT : Z := 4.
Definition totalChannels : Z := 8 * MOTOR_SHIELD_COUNT.

Record Rotary : Type := mkRotary {
  rotaryCount : Z;
  rotaryDisabled : Z;
  aFlag : Z;
  bFlag : Z;
  reading : Z;
  selectedShield : Z;
  selectedChannel : Z;
  lcd : list Z;
  line : list LineOp
}.

Definition rotaryUp (r : Rotary) : Rotary :=
  let c := int16 (rotaryCount r + 1) in
  mkRotary (if c >? totalChannels - 1 then totalChannels - 1 else c)
    (rotaryDisabled r) (aFlag r) (bFlag r) (reading r)
    (selectedShield r) (selectedChannel r) (lcd r) (line r).

Definition rotaryDown (r : Rotary) : Rotary :=
  let c := int16 (rotaryCount r - 1) in
  mkRotary (if c <? 0 then 0 else c)
    (rotaryDisabled r) (aFlag r) (bFlag r) (reading r)
    (selectedShield r) (selectedChannel r) (lcd r) (line r).

Definition set_flags (a b : Z) (r : Rotary) : Rotary :=
  mkRotary (rotaryCount r) (rotaryDisabled r) a b (reading r)
    (selectedShield r) (selectedChannel r) (lcd r) (line r).

Definition set_reading (v : Z) (r : Rotary) : Rotary :=
  mkRotary (rotaryCount r) (rotaryDisabled r) (aFlag r) (bFlag r) v
    (selectedShield r) (selectedChannel r) (lcd r) (line r).

(** The interrupt routine of encoder pin A, when port D reads [PIND]. *)
Definition PinA (PIND : Z) (r : Rotary) : Rotary :=
  if negb (rotaryDisabled r =? 0) then r
  else
    let r1 := set_reading (u8 (Z.land PIND 12)) r in
    if (reading r1 =? 12) && negb (aFlag r1 =? 0)
    then set_flags 0 0 (rotaryUp r1)
    else if reading r1 =? 4 then set_flags (aFlag r1) 1 r1
    else r1.

Definition PinB (PIND : Z) (r : Rotary) : Rotary :=
  if negb (rotaryDisabled r =? 0) then r
  else
    let r1 := set_reading (u8 (Z.land PIND 12)) r in
    if (reading r1 =? 12) && negb (bFlag r1 =? 0)
    then set_flags 0 0 (rotaryDown r1)
    else if reading r1 =? 8 then set_flags 1 (bFlag r1) r1
    else r1.

Definition rotaryLongPress (r : Rotary) : Rotary :=
  mkRotary 0 (rotaryDisabled r) (aFlag r) (bFlag r) (reading r)
    (selectedShield r) (selectedChannel r) (lcd r) (line r).

Definition rotaryClick (r : Rotary) : Rotary :=
  mkRotary (rotaryCount r) (rotaryDisabled r) (aFlag r) (bFlag r) (reading r)
    (selectedShield r) (selectedChannel r) (lcd r)
    (line r ++ testNote (selectedShield r) (selectedChannel r)).

(** [updateLcdMotorShield]: the selection is computed from the counter with
    C's [%] and [/] and shown; [lcd] collects the two numbers printed.  The
    encoder is disabled meanwhile and enabled again at the end. *)
Definition updateLcdMotorShield (r : Rotary) : Rotary :=
  let channel := u8 (Z.rem (rotaryCount r) 8) in
  let shield := u8 (Z.quot (int16 (rotaryCount r - channel)) 8) in
  mkRotary (rotaryCount r) 0 (aFlag r) (bFlag r) (reading r)
    shield channel (lcd r ++ [shield; channel]) (line r).

(** The globals after [setup()] of the master. *)
Definition rotary_setup : Rotary := mkRotary 0 0 0 0 0 0 0 [] [].

(** What can happen to the master after [setup()]: an edge on either
    encoder pin, a click or a long press of the button, a run of [loop()]
    that refreshes the display. *)
Inductive RotaryEvent : Type :=
  | EdgeA (PIND : Z)
  | EdgeB (PIND : Z)
  | Click
  | LongPress
  | Refresh.

Definition rotary_event (r : Rotary) (e : RotaryEvent) : Rotary :=
  match e with
  | EdgeA p => PinA p r
  | EdgeB p => PinB p r
  | Click => rotaryClick r
  | LongPress => rotaryLongPress r
  | Refresh => updateLcdMotorShield r
  end.

Definition rotary_run (es : list RotaryEvent) : Rotary :=
  fold_left rotary_event es rotary_setup.

(** The bytes of a sequence of calls of [sendMotorShieldCommand], given as
    pairs of board number and command byte. *)
Definition commands (cmds : list (Z * Z)) : list Z :=
  concat (map (fun cmd => sendMotorShieldCommand cmd.1 cmd.2) cmds).

(** A command for one of the boards of the chain that is the zero mask or
    selects a single channel. *)
Definition single_channel_command (cmd : Z * Z) : Prop :=
  0 <= cmd.1 < MOTOR_SHIELD_COUNT /\
  (cmd.2 = 0 \/ exists c, 0 <= c < 8 /\ cmd.2 = 2 ^ c).

(** What holds of the master's globals between any two events. *)
Definition rotary_ok (r : Rotary) : Prop :=
  0 <= rotaryCount r <= totalChannels - 1 /\
  0 <= selectedShield r < MOTOR_SHIELD_COUNT /\
  0 <= selectedChannel r < 8 /\
  rotaryDisabled r = 0 /\
  exists cmds, sent (line r) = commands cmds /\
               Forall single_channel_command cmds.

(** Bit indices such as [2 * 1 + 1] in the goal, evaluated. *)
Ltac closed_bit_indices :=
  repeat match goal with
         | |- context [Z.testbit _ ?k] =>
             lazymatch k with
             | Z0 => fail
             | Zpos _ => fail
             | _ => let v := eval vm_compute in k in change k with v
             end
         end.

(** ** Machine-integer facts *)

Lemma u8_range z : 0 <= u8 z < 256.
Proof. unfold u8. apply Z.mod_pos_bound. lia. Qed.

Lemma u8_small z : 0 <= z < 256 -> u8 z = z.
Proof. intros H. unfold u8. apply Z.mod_small. lia. Qed.

Lemma ulong_range z : 0 <= ulong z < 2 ^ 32.
Proof. unfold ulong. apply Z.mod_pos_bound. lia. Qed.

Lemma ulong_small z : 0 <= z < 2 ^ 32 -> ulong z = z.
Proof. intros H. unfold ulong. apply Z.mod_small. lia. Qed.

Lemma int16_small z : -32768 <= z < 32768 -> int16 z = z.
Proof. intros H. unfold int16. rewrite Z.mod_small; lia. Qed.

(** The unsigned difference of two clock readings is the time elapsed,
    across a wrap of the counter too. *)
Lemma millis_elapsed t0 t :
  0 <= t - t0 < 2 ^ 32 -> ulong (millis t - millis t0) = t - t0.
Proof.
  intros H. unfold millis, ulong.
  rewrite Zminus_mod_idemp_l, Zminus_mod_idemp_r.
  apply Z.mod_small. lia.
Qed.

Lemma bitRead_testbit v i :
  0 <= i -> (bitRead v i =? 0) = negb (Z.testbit v i).
Proof.
  intros Hi. unfold bitRead.
  change 1 with (Z.ones 1). rewrite Z.land_ones by lia.
  rewrite <- (Z.add_0_l i) at 2. rewrite <- Z.shiftr_spec by lia.
  change (2 ^ 1) with 2. rewrite <- Z.bit0_mod.
  by destruct (Z.testbit (Z.shiftr v i) 0).
Qed.

Lemma testbit_u8 z i : 0 <= i < 8 -> Z.testbit (u8 z) i = Z.testbit z i.
Proof.
  intros Hi. unfold u8. change 256 with (2 ^ 8).
  apply Z.mod_pow2_bits_low. lia.
Qed.

Lemma testbit_bitSet v i j :
  0 <= i -> 0 <= j -> Z.testbit (bitSet v i) j = Z.testbit v j || (j =? i).
Proof.
  intros Hi Hj. unfold bitSet.
  rewrite Z.lor_spec, Z.shiftl_1_l, Z.pow2_bits_eqb by lia.
  by rewrite (Z.eqb_sym i j).
Qed.

Lemma testbit_bitClear v i j :
  0 <= i -> 0 <= j ->
  Z.testbit (bitClear v i) j = Z.testbit v j && negb (j =? i).
Proof.
  intros Hi Hj. unfold bitClear.
  rewrite Z.land_spec, Z.lnot_spec, Z.shiftl_1_l, Z.pow2_bits_eqb by lia.
  by rewrite (Z.eqb_sym i j).
Qed.

(** ** Arrays in range *)

Lemma array_load_total (a : list Z) i :
  0 <= i < Z.of_nat (length a) -> array_load a i = Some (a !!! Z.to_nat i).
Proof.
  intros Hi. unfold array_load.
  destruct (Z.leb_spec 0 i); [|lia].
  apply list_lookup_lookup_total_lt. lia.
Qed.

Lemma array_store_total (a : list Z) i v :
  0 <= i < Z.of_nat (length a) ->
  array_store a i v = Some (<[Z.to_nat i := v]> a).
Proof.
  intros Hi. unfold array_store.
  destruct (Z.leb_spec 0 i); [|lia]. destruct (Z.ltb_spec i (Z.of_nat (length a))); [|lia].
  done.
Qed.

(** ** The two channel loops, channel by channel *)

Lemma only_channels_refl s : only_channels s s.
Proof. exists (channelOnBitmask s), (setChannelLastTime s). by destruct s. Qed.

Lemma only_channels_trans s1 s2 s3 :
  only_channels s1 s2 -> only_channels s2 s3 -> only_channels s1 s3.
Proof. intros (m & l & ->) (m' & l' & ->). by exists m', l'. Qed.

Lemma channel_with_channels m l s j :
  channel (with_channels m l s) j = (Z.testbit m j, l !!! Z.to_nat j).
Proof. done. Qed.

Section ChannelLoop.
Variable body : Z -> State -> option State.
Variable f : Z -> ChannelState -> ChannelState.
Variable s0 : State.

Hypothesis Hbody : forall k s,
  0 <= k < 8 -> only_channels s0 s -> chan_ok s ->
  exists s', body k s = Some s' /\ only_channels s0 s' /\ chan_ok s' /\
    forall j, 0 <= j < 8 ->
      channel s' j = if j =? k then f j (channel s j) else channel s j.

Lemma for_upto_channels n k s :
  0 <= k -> k + Z.of_nat n <= 8 -> only_channels s0 s -> chan_ok s ->
  exists s', for_upto n k body s = Some s' /\ only_channels s0 s' /\
    chan_ok s' /\
    forall j, 0 <= j < 8 ->
      channel s' j = if (k <=? j) && (j <? k + Z.of_nat n)
                     then f j (channel s j) else channel s j.
Proof.
  revert k s. induction n as [|n IH]; intros k s Hk Hn Hs Hok.
  - exists s. repeat split; try done; try apply Hok.
    intros j Hj.
    destruct (Z.leb_spec k j), (Z.ltb_spec j (k + Z.of_nat 0)); simpl; try done; lia.
  - destruct (Hbody k s) as (s1 & E1 & Hs1 & Hok1 & Hc1); [lia|done|done|].
    destruct (IH (k + 1) s1) as (s2 & E2 & Hs2 & Hok2 & Hc2);
      [lia|lia|done|done|].
    exists s2. simpl. rewrite E1. simpl.
    split; [done|]. split; [done|]. split; [done|].
    intros j Hj. rewrite Hc2, Hc1 by done.
    destruct (Z.eqb_spec j k) as [->|Hne].
    + destruct (Z.leb_spec (k + 1) k); [lia|].
      destruct (Z.leb_spec k k), (Z.ltb_spec k (k + Z.of_nat (S n))); simpl; try done; lia.
    + destruct (Z.leb_spec (k + 1) j), (Z.ltb_spec j (k + 1 + Z.of_nat n)),
        (Z.leb_spec k j), (Z.ltb_spec j (k + Z.of_nat (S n))); simpl; try done; lia.
Qed.
End ChannelLoop.

Lemma processSerial_body_channel t cmd k s :
  0 <= k < 8 -> chan_ok s -> 0 <= minChannelOffTime s < 2 ^ 32 ->
  exists s', processSerial_body t cmd k s = Some s' /\ only_channels s s' /\
    chan_ok s' /\
    forall j, 0 <= j < 8 ->
      channel s' j =
        if j =? k
        then (if Z.testbit cmd j
              then requestOn (millis t) (minChannelOffTime s) (channel s j)
              else channel s j)
        else channel s j.
Proof.
  intros Hk [Hlen Hm] Hoff.
  unfold processSerial_body.
  rewrite !bitRead_testbit by lia.
  rewrite array_load_total by lia. simpl.
  rewrite (ulong_small (minChannelOffTime s)) by done.
  destruct (Z.testbit cmd k) eqn:Ecmd; simpl.
  2:{ exists s. split; [done|]. split; [apply only_channels_refl|]. split; [done|].
      intros j Hj. destruct (Z.eqb_spec j k) as [->|]; [by rewrite Ecmd|done]. }
  destruct (Z.testbit (channelOnBitmask s) k) eqn:Eon; simpl.
  { exists s. split; [done|]. split; [apply only_channels_refl|]. split; [done|].
    intros j Hj. destruct (Z.eqb_spec j k) as [->|]; [|done].
    rewrite Ecmd. unfold requestOn, channel. simpl. by rewrite Eon. }
  destruct (ulong (millis t - setChannelLastTime s !!! Z.to_nat k) >=?
            minChannelOffTime s) eqn:Ege.
  2:{ exists s. split; [done|]. split; [apply only_channels_refl|]. split; [done|].
      intros j Hj. destruct (Z.eqb_spec j k) as [->|]; [|done].
      rewrite Ecmd. unfold requestOn, channel. simpl. by rewrite Eon, Ege. }
  rewrite array_store_total by (simpl; lia). simpl.
  eexists. split; [done|].
  split; [by eexists _, _|].
  split; [split; simpl; [by rewrite length_insert | apply u8_range]|].
  intros j Hj. unfold channel at 1. simpl.
  unfold bitWrite. simpl. rewrite testbit_u8, testbit_bitSet by lia.
  destruct (Z.eqb_spec j k) as [->|Hne].
  - rewrite Ecmd. unfold requestOn, channel. simpl. rewrite Eon, Ege. simpl.
    f_equal. apply list_lookup_total_insert_eq. lia.
  - rewrite orb_false_r. unfold channel. f_equal.
    apply list_lookup_total_insert_ne. lia.
Qed.

Lemma checkResetChannels_body_channel t k s :
  0 <= k < 8 -> chan_ok s -> 0 <= channelOnTime s < 2 ^ 32 ->
  exists s', checkResetChannels_body t k s = Some s' /\ only_channels s s' /\
    chan_ok s' /\
    forall j, 0 <= j < 8 ->
      channel s' j =
        if j =? k then pollExpire (millis t) (channelOnTime s) (channel s j)
        else channel s j.
Proof.
  intros Hk [Hlen Hm] Hon.
  unfold checkResetChannels_body.
  rewrite !bitRead_testbit by lia.
  rewrite array_load_total by lia. simpl.
  rewrite (ulong_small (channelOnTime s)) by done.
  destruct (Z.testbit (channelOnBitmask s) k) eqn:Eon; simpl.
  2:{ exists s. split; [done|]. split; [apply only_channels_refl|]. split; [done|].
      intros j Hj. destruct (Z.eqb_spec j k) as [->|]; [|done].
      unfold pollExpire, channel. simpl. by rewrite Eon. }
  destruct (ulong (millis t - setChannelLastTime s !!! Z.to_nat k) >?
            channelOnTime s) eqn:Egt.
  2:{ exists s. split; [done|]. split; [apply only_channels_refl|]. split; [done|].
      intros j Hj. destruct (Z.eqb_spec j k) as [->|]; [|done].
      unfold pollExpire, channel. simpl. by rewrite Eon, Egt. }
  rewrite array_store_total by (simpl; lia). simpl.
  eexists. split; [done|].
  split; [by eexists _, _|].
  split; [split; simpl; [by rewrite length_insert | apply u8_range]|].
  intros j Hj. unfold channel at 1. simpl.
  unfold bitWrite. simpl. rewrite testbit_u8, testbit_bitClear by lia.
  destruct (Z.eqb_spec j k) as [->|Hne].
  - unfold pollExpire, channel. simpl. rewrite Eon, Egt. simpl.
    f_equal. apply list_lookup_total_insert_eq. lia.
  - simpl. rewrite andb_true_r. unfold channel. f_equal.
    apply list_lookup_total_insert_ne. lia.
Qed.

Lemma only_channels_minChannelOffTime s s' :
  only_channels s s' -> minChannelOffTime s' = minChannelOffTime s.
Proof. by intros (m & l & ->). Qed.

Lemma only_channels_channelOnTime s s' :
  only_channels s s' -> channelOnTime s' = channelOnTime s.
Proof. by intros (m & l & ->). Qed.

(** The on-request loop of [processSerial]: every channel whose bit is set
    in [cmd] gets the specification's [requestOn], the others nothing. *)
Lemma processSerial_loop_channels t cmd s :
  chan_ok s -> 0 <= minChannelOffTime s < 2 ^ 32 ->
  exists s', for_upto 8 0 (processSerial_body t cmd) s = Some s' /\
    only_channels s s' /\ chan_ok s' /\
    forall j, 0 <= j < 8 ->
      channel s' j =
        if Z.testbit cmd j
        then requestOn (millis t) (minChannelOffTime s) (channel s j)
        else channel s j.
Proof.
  intros Hok Hoff.
  destruct (for_upto_channels (processSerial_body t cmd)
              (fun j c => if Z.testbit cmd j
                          then requestOn (millis t) (minChannelOffTime s) c
                          else c) s) with (n := 8%nat) (k := 0) (s := s)
    as (s' & E & Hs & Hok' & Hc); try done; try lia.
  - intros k s1 Hk Hs1 Hok1.
    destruct (processSerial_body_channel t cmd k s1) as (s2 & E2 & Hs2 & Hok2 & Hc2);
      try done.
    { by rewrite (only_channels_minChannelOffTime s s1). }
    exists s2. split; [done|]. split; [by eapply only_channels_trans|].
    split; [done|]. intros j Hj.
    rewrite Hc2 by done. by rewrite (only_channels_minChannelOffTime s s1).
  - apply only_channels_refl.
  - exists s'. split; [done|]. split; [done|]. split; [done|].
    intros j Hj. rewrite Hc by done.
    destruct (Z.leb_spec 0 j), (Z.ltb_spec j (0 + Z.of_nat 8)); simpl; try done; lia.
Qed.

(** [checkResetChannels] is the specification's [pollExpire] on every channel. *)
Lemma checkResetChannels_channels t s :
  chan_ok s -> 0 <= channelOnTime s < 2 ^ 32 ->
  exists s', checkResetChannels t s = Some s' /\
    only_channels s s' /\ chan_ok s' /\
    forall j, 0 <= j < 8 ->
      channel s' j = pollExpire (millis t) (channelOnTime s) (channel s j).
Proof.
  intros Hok Hon. unfold checkResetChannels.
  destruct (for_upto_channels (checkResetChannels_body t)
              (fun j c => pollExpire (millis t) (channelOnTime s) c) s)
    with (n := 8%nat) (k := 0) (s := s)
    as (s' & E & Hs & Hok' & Hc); try done; try lia.
  - intros k s1 Hk Hs1 Hok1.
    destruct (checkResetChannels_body_channel t k s1) as (s2 & E2 & Hs2 & Hok2 & Hc2);
      try done.
    { by rewrite (only_channels_channelOnTime s s1). }
    exists s2. split; [done|]. split; [by eapply only_channels_trans|].
    split; [done|]. intros j Hj.
    rewrite Hc2 by done. by rewrite (only_channels_channelOnTime s s1).
  - apply only_channels_refl.
  - exists s'. split; [done|]. split; [done|]. split; [done|].
    intros j Hj. rewrite Hc by done.
    destruct (Z.leb_spec 0 j), (Z.ltb_spec j (0 + Z.of_nat 8)); simpl; try done; lia.
Qed.

(** ** The on-request of one channel, case by case *)

Lemma processSerial_body_accept t cmd i s :
  0 <= i < 8 -> chan_ok s -> 0 <= minChannelOffTime s < 2 ^ 32 ->
  Z.testbit cmd i = true ->
  (channel s i).1 = false ->
  minChannelOffTime s <= ulong (millis t - (channel s i).2) ->
  processSerial_body t cmd i s =
    Some (with_channels (u8 (bitSet (channelOnBitmask s) i))
            (<[Z.to_nat i := millis t]> (setChannelLastTime s)) s).
Proof.
  intros Hi [Hlen Hm] Hoff Hcmd Hon Hge. unfold channel in *. simpl in *.
  unfold processSerial_body.
  rewrite !bitRead_testbit, Hcmd, Hon by lia. simpl.
  rewrite array_load_total by lia. simpl.
  rewrite (ulong_small (minChannelOffTime s)) by done.
  rewrite Z.geb_leb. destruct (Z.leb_spec (minChannelOffTime s)
    (ulong (millis t - setChannelLastTime s !!! Z.to_nat i))); [|lia].
  by rewrite array_store_total by (simpl; lia).
Qed.

Lemma processSerial_body_noop t cmd i s :
  0 <= i < 8 -> chan_ok s -> 0 <= minChannelOffTime s < 2 ^ 32 ->
  Z.testbit cmd i = false \/ (channel s i).1 = true \/
    ulong (millis t - (channel s i).2) < minChannelOffTime s ->
  processSerial_body t cmd i s = Some s.
Proof.
  intros Hi [Hlen Hm] Hoff H. unfold channel in *. simpl in *.
  unfold processSerial_body.
  rewrite !bitRead_testbit by lia.
  destruct (Z.testbit cmd i); [|done].
  destruct (Z.testbit (channelOnBitmask s) i); [done|]. simpl.
  rewrite array_load_total by lia. simpl.
  rewrite (ulong_small (minChannelOffTime s)) by done.
  rewrite Z.geb_leb. destruct (Z.leb_spec (minChannelOffTime s)
    (ulong (millis t - setChannelLastTime s !!! Z.to_nat i))); [|done].
  destruct H as [?|[?|?]]; [done|done|lia].
Qed.

Lemma channel_accept i m l s :
  0 <= i < 8 -> length l = 8%nat ->
  forall now j, 0 <= j < 8 ->
    channel (with_channels (u8 (bitSet m i)) (<[Z.to_nat i := now]> l) s) j =
      if j =? i then (true, now) else (Z.testbit m j, l !!! Z.to_nat j).
Proof.
  intros Hi Hl now j Hj. rewrite channel_with_channels.
  rewrite testbit_u8, testbit_bitSet by lia.
  destruct (Z.eqb_spec j i) as [->|Hne].
  - rewrite orb_true_r. f_equal. apply list_lookup_total_insert_eq. lia.
  - rewrite orb_false_r. f_equal. apply list_lookup_total_insert_ne. lia.
Qed.

(** C2: an on-request for channel [i] (one turn of the loop of
    [processSerial] with bit [i] of the command set) turns the channel on
    and stamps it with the current clock reading exactly when the channel is
    off and the unsigned difference between the clock and its last
    transition time is at least [minChannelOffTime]; in every other case the
    whole state is left as it was.  In particular, for a channel that went
    off at [T]: a request at [T + minChannelOffTime] succeeds, a request one
    millisecond earlier (inside a debounce window that is not empty) is
    rejected, and a request to a channel that is on changes nothing. *)
Theorem C2_requestOn_debounce (cmd i : Z) (s : State) :
  0 <= i < 8 -> chan_ok s -> 0 <= minChannelOffTime s < 2 ^ 32 ->
  Z.testbit cmd i = true ->
  (forall t,
     (channel s i).1 = false ->
     minChannelOffTime s <= ulong (millis t - (channel s i).2) ->
     exists s', processSerial_body t cmd i s = Some s' /\ only_channels s s' /\
       channel s' i = (true, millis t) /\
       forall j, 0 <= j < 8 -> j <> i -> channel s' j = channel s j) /\
  (forall t,
     ~ ((channel s i).1 = false /\
        minChannelOffTime s <= ulong (millis t - (channel s i).2)) ->
     processSerial_body t cmd i s = Some s) /\
  (forall T,
     channel s i = (false, millis T) ->
     (exists s', processSerial_body (T + minChannelOffTime s) cmd i s = Some s' /\
        channel s' i = (true, millis (T + minChannelOffTime s))) /\
     (0 < minChannelOffTime s ->
      processSerial_body (T + minChannelOffTime s - 1) cmd i s = Some s)) /\
  (forall t, (channel s i).1 = true -> processSerial_body t cmd i s = Some s).
Proof.
  intros Hi Hok Hoff Hcmd.
  assert (Hacc : forall t, (channel s i).1 = false ->
            minChannelOffTime s <= ulong (millis t - (channel s i).2) ->
            exists s', processSerial_body t cmd i s = Some s' /\ only_channels s s' /\
              channel s' i = (true, millis t) /\
              forall j, 0 <= j < 8 -> j <> i -> channel s' j = channel s j).
  { intros t Hoffst Hge. eexists. split; [by apply processSerial_body_accept|].
    split; [by eexists _, _|]. destruct Hok as [Hlen Hm].
    split.
    - rewrite channel_accept by done. by rewrite Z.eqb_refl.
    - intros j Hj Hne. rewrite channel_accept by done.
      by destruct (Z.eqb_spec j i). }
  split; [exact Hacc|]. split; [|split].
  - intros t Hnot. apply processSerial_body_noop; try done.
    destruct (channel s i).1 eqn:E; [by right; left|].
    right; right. destruct (Z.lt_ge_cases
      (ulong (millis t - (channel s i).2)) (minChannelOffTime s)); [done|].
    exfalso. by apply Hnot.
  - intros T HT. split.
    + destruct (Hacc (T + minChannelOffTime s)) as (s' & E & _ & Hc & _).
      * by rewrite HT.
      * rewrite HT. simpl. rewrite millis_elapsed; lia.
      * by exists s'.
    + intros Hpos. apply processSerial_body_noop; try done.
      right; right. rewrite HT. simpl. rewrite millis_elapsed; lia.
  - intros t Hon. apply processSerial_body_noop; try done. by right; left.
Qed.

Lemma C2_requestOn_debounce_witness :
  (0 <= 2 < 8 /\ chan_ok (setup 0 erased) /\
   0 <= minChannelOffTime (setup 0 erased) < 2 ^ 32 /\ Z.testbit 4 2 = true) /\
  processSerial_body 39 4 2 (setup 0 erased) = Some (setup 0 erased) /\
  exists s', processSerial_body 40 4 2 (setup 0 erased) = Some s' /\
             channel s' 2 = (true, 40).
Proof.
  assert (H1 : 0 <= 2 < 8) by lia.
  assert (H2 : chan_ok (setup 0 erased)) by (by vm_compute).
  assert (H3 : 0 <= minChannelOffTime (setup 0 erased) < 2 ^ 32) by (by vm_compute).
  assert (H4 : Z.testbit 4 2 = true) by reflexivity.
  split; [done|].
  destruct (C2_requestOn_debounce 4 2 (setup 0 erased) H1 H2 H3 H4)
    as (_ & _ & H & _).
  destruct (H 0 eq_refl) as [Hok Hrej].
  split; [exact (Hrej ltac:(by vm_compute)) | exact Hok].
Defined.

(** ** Cycles with nothing on the line *)

Lemma listenSerial_idle t s :
  serialRx s = [] -> listenSerial t s = Some (timeout_reset t s).
Proof.
  intros Hrx. unfold listenSerial, timeout_reset. rewrite Hrx. simpl.
  by destruct (_ >? _).
Qed.

Lemma processSerial_idle t s :
  serialMessageAvailable s = 0 -> processSerial t s = Some s.
Proof. intros H. unfold processSerial. by rewrite H. Qed.

Lemma loop_idle t s :
  serialRx s = [] -> serialMessageAvailable s = 0 ->
  chan_ok s -> 0 <= channelOnTime s < 2 ^ 32 ->
  exists s', loop t s = Some s' /\ only_channels (timeout_reset t s) s' /\
    chan_ok s' /\
    forall j, 0 <= j < 8 ->
      channel s' j = pollExpire (millis t) (channelOnTime s) (channel s j).
Proof.
  intros Hrx Hav Hok Hon. unfold loop.
  rewrite listenSerial_idle by done. simpl.
  assert (E : forall j, channel (timeout_reset t s) j = channel s j).
  { intros j. unfold timeout_reset. by destruct (_ >? _). }
  assert (Eon : channelOnTime (timeout_reset t s) = channelOnTime s).
  { unfold timeout_reset. by destruct (_ >? _). }
  rewrite processSerial_idle by (unfold timeout_reset; by destruct (_ >? _)).
  simpl.
  destruct (checkResetChannels_channels t (timeout_reset t s))
    as (s' & E' & Hs & Hok' & Hc).
  { unfold timeout_reset. by destruct (_ >? _). }
  { by rewrite Eon. }
  exists s'. repeat split; try done; try apply Hok'.
  intros j Hj. by rewrite Hc, Eon, E.
Qed.





(** ** The frame decoder, byte by byte *)

Lemma same_engine_refl s : same_engine s s.
Proof. by repeat split. Qed.

Lemma same_engine_trans s1 s2 s3 :
  same_engine s1 s2 -> same_engine s2 s3 -> same_engine s1 s3.
Proof.
  unfold same_engine. intros (?&?&?&?&?&?&?) (?&?&?&?&?&?&?).
  repeat split; congruence.
Qed.

Lemma listenSerialNewChar_append leave s :
  length (serialData s) = 32%nat -> 0 <= leave ->
  0 <= serialMessageLength s < 32 - leave ->
  listenSerialNewChar leave s =
    Some (set_serialData
            (<[Z.to_nat (serialMessageLength s) := serialNextChar s]> (serialData s))
            (set_serialMessageLength (serialMessageLength s + 1) s)).
Proof.
  intros Hd Hl Hn. unfold listenSerialNewChar, SERIAL_MAX_DATA_LENGTH.
  rewrite Z.geb_leb.
  destruct (Z.leb_spec (32 - leave) (serialMessageLength s)); [lia|].
  simpl. rewrite u8_small by lia.
  rewrite array_store_total by lia. simpl.
  by replace (serialMessageLength s + 1 - 1) with (serialMessageLength s) by lia.
Qed.

Lemma listenSerialNewChar_full leave s :
  32 - leave <= serialMessageLength s -> listenSerialNewChar leave s = Some s.
Proof.
  intros Hn. unfold listenSerialNewChar, SERIAL_MAX_DATA_LENGTH.
  rewrite Z.geb_leb.
  by destruct (Z.leb_spec (32 - leave) (serialMessageLength s)); [|lia].
Qed.

Lemma take_append_insert (d : list Z) (n : nat) (c : Z) :
  (n < length d)%nat -> take (S n) (<[n := c]> d) = take n d ++ [c].
Proof.
  intros Hn. rewrite (take_S_r _ _ c) by (by apply list_lookup_insert_eq).
  by rewrite take_insert_ge by lia.
Qed.

(** The state after byte [c] has been stored at the end of the frame. *)
Lemma frame_of_stored s s0 c :
  length (serialData s) = 32%nat -> 0 <= serialMessageLength s < 32 ->
  frame_of (set_serialData
              (<[Z.to_nat (serialMessageLength s) := c]> (serialData s))
              (set_serialMessageLength (serialMessageLength s + 1) s0)) =
  frame_of s ++ [c].
Proof.
  intros Hd Hn. unfold frame_of. simpl.
  replace (Z.to_nat (serialMessageLength s + 1))
    with (S (Z.to_nat (serialMessageLength s))) by lia.
  apply take_append_insert. lia.
Qed.

(** A byte other than the end marker while a message is active. *)
Lemma listenSerial_body_payload t c s :
  length (serialData s) = 32%nat -> serialMessageActive s <> 0 ->
  0 <= c < 256 -> c <> 62 -> 0 <= serialMessageLength s < 31 ->
  listenSerial_body t c s =
    Some (false,
          set_serialData (<[Z.to_nat (serialMessageLength s) := c]> (serialData s))
            (set_serialMessageLength (serialMessageLength s + 1)
               (set_serialNextChar c (set_serialLastTime (millis t) s)))).
Proof.
  intros Hd Ha Hc Hne Hn. unfold listenSerial_body. simpl.
  rewrite u8_small by done.
  destruct (Z.eqb_spec (serialMessageActive s) 0); [done|]. simpl.
  unfold SERIAL_MSG_END_CHAR. destruct (Z.eqb_spec c 62); [done|].
  by rewrite listenSerialNewChar_append by (simpl; lia).
Qed.

Lemma listenSerial_body_overflow t c s :
  serialMessageActive s <> 0 ->
  0 <= c < 256 -> c <> 62 -> 31 <= serialMessageLength s ->
  listenSerial_body t c s =
    Some (false, set_serialNextChar c (set_serialLastTime (millis t) s)).
Proof.
  intros Ha Hc Hne Hn. unfold listenSerial_body. simpl.
  rewrite u8_small by done.
  destruct (Z.eqb_spec (serialMessageActive s) 0); [done|]. simpl.
  unfold SERIAL_MSG_END_CHAR. destruct (Z.eqb_spec c 62); [done|].
  by rewrite listenSerialNewChar_full by (simpl; lia).
Qed.

(** The end marker while a message is active. *)
Lemma listenSerial_body_end t s :
  length (serialData s) = 32%nat -> serialMessageActive s <> 0 ->
  0 <= serialMessageLength s < 32 ->
  listenSerial_body t 62 s =
    Some (true,
          set_serialMessageAvailable 1 (set_serialMessageActive 0
            (set_serialData (<[Z.to_nat (serialMessageLength s) := 62]> (serialData s))
               (set_serialMessageLength (serialMessageLength s + 1)
                  (set_serialNextChar 62 (set_serialLastTime (millis t) s)))))).
Proof.
  intros Hd Ha Hn. unfold listenSerial_body. simpl.
  destruct (Z.eqb_spec (serialMessageActive s) 0); [done|]. simpl.
  change (u8 62 =? SERIAL_MSG_END_CHAR) with true. simpl.
  by rewrite listenSerialNewChar_append by (simpl; lia).
Qed.

(** The begin marker while no message is active. *)
Lemma listenSerial_body_begin t s :
  length (serialData s) = 32%nat -> serialMessageActive s = 0 ->
  0 <= serialMessageLength s < 31 ->
  listenSerial_body t 60 s =
    Some (false,
          set_serialMessageActive 1
            (set_serialData (<[Z.to_nat (serialMessageLength s) := 60]> (serialData s))
               (set_serialMessageLength (serialMessageLength s + 1)
                  (set_serialNextChar 60 (set_serialLastTime (millis t) s))))).
Proof.
  intros Hd Ha Hn. unfold listenSerial_body. simpl. rewrite Ha. simpl.
  change (u8 60 =? SERIAL_MSG_BEGIN_CHAR) with true. simpl.
  by rewrite listenSerialNewChar_append by (simpl; lia).
Qed.

(** Any other byte while no message is active. *)
Lemma listenSerial_body_ignored t c s :
  serialMessageActive s = 0 -> u8 c <> 60 ->
  listenSerial_body t c s =
    Some (false, set_serialNextChar (u8 c) (set_serialLastTime (millis t) s)).
Proof.
  intros Ha Hc. unfold listenSerial_body. simpl. rewrite Ha. simpl.
  unfold SERIAL_MSG_BEGIN_CHAR. by destruct (Z.eqb_spec (u8 c) 60).
Qed.

Lemma listenSerial_while_cons t c rx s :
  listenSerial_while t (c :: rx) s =
    '(returned, s') ← listenSerial_body t c (set_serialRx rx s);
    if returned : bool then Some (true, s') else listenSerial_while t rx s'.
Proof. done. Qed.

(** The bytes between the markers: stored while there is room for them and
    for the end marker, dropped after that. *)
Lemma listenSerial_while_payload t body :
  forall rest s,
    Forall (fun c => 0 <= c < 256 /\ c <> 62) body ->
    serialMessageActive s <> 0 ->
    length (serialData s) = 32%nat -> 0 <= serialMessageLength s <= 31 ->
    exists s1,
      listenSerial_while t (body ++ rest) s = listenSerial_while t rest s1 /\
      serialMessageActive s1 = serialMessageActive s /\
      serialMessageAvailable s1 = serialMessageAvailable s /\
      length (serialData s1) = 32%nat /\
      serialMessageLength s1 =
        serialMessageLength s +
        Z.of_nat (length (take (Z.to_nat (31 - serialMessageLength s)) body)) /\
      frame_of s1 =
        frame_of s ++ take (Z.to_nat (31 - serialMessageLength s)) body /\
      drop (Z.to_nat (serialMessageLength s1)) (serialData s1) =
        drop (Z.to_nat (serialMessageLength s1)) (serialData s) /\
      same_engine s s1 /\
      (serialLastTime s = millis t -> serialLastTime s1 = millis t) /\
      ((body = [] /\ s1 = s) \/ serialRx s1 = rest).
Proof.
  induction body as [|c body IH]; intros rest s Hb Ha Hd Hn.
  - exists s. rewrite take_nil, app_nil_r. simpl.
    split_and!; try done; try lia; try apply same_engine_refl. by left.
  - inversion Hb as [|c' body' [Hc Hne] Hb']; subst c' body'.
    rewrite <- app_comm_cons, listenSerial_while_cons.
    destruct (Z.lt_ge_cases (serialMessageLength s) 31) as [Hlt|Hge].
    + rewrite listenSerial_body_payload by (simpl; done || lia). simpl.
      match goal with |- context [listenSerial_while t (body ++ rest) ?s2] =>
        destruct (IH rest s2)
          as (s1 & E & Ha1 & Hv1 & Hd1 & Hn1 & Hf1 & Hdr1 & He1 & Ht1 & Hrx1)
      end; try done.
      { simpl. by rewrite length_insert. }
      { simpl. lia. }
      simpl in *. exists s1. split; [done|].
      replace (Z.to_nat (31 - serialMessageLength s))
        with (S (Z.to_nat (31 - (serialMessageLength s + 1)))) by lia.
      simpl. split_and!; try done.
      * lia.
      * rewrite Hf1.
        rewrite (frame_of_stored s) by (done || lia).
        by rewrite <- app_assoc.
      * rewrite Hdr1. apply drop_insert_lt. lia.
      * intros _. by apply Ht1.
      * right. by destruct Hrx1 as [[-> ->]|?].
    + rewrite listenSerial_body_overflow by (simpl; done || lia). simpl.
      match goal with |- context [listenSerial_while t (body ++ rest) ?s2] =>
        destruct (IH rest s2)
          as (s1 & E & Ha1 & Hv1 & Hd1 & Hn1 & Hf1 & Hdr1 & He1 & Ht1 & Hrx1)
      end; try done.
      simpl in *. exists s1. split; [done|].
      replace (Z.to_nat (31 - serialMessageLength s)) with 0%nat in * by lia.
      rewrite take_0 in *. simpl in *.
      split_and!; try done; try lia;
        try (intros _; by apply Ht1);
        try (right; by destruct Hrx1 as [[-> ->]|?]);
        by rewrite ?app_nil_r in *.
Qed.

(** A whole frame arriving while the decoder listens: the begin marker, the
    bytes [body] (none of them the end marker), the end marker. *)
Lemma listenSerial_frame t body rest s :
  Forall (fun c => 0 <= c < 256 /\ c <> 62) body ->
  serialMessageActive s = 0 -> serialMessageLength s = 0 ->
  length (serialData s) = 32%nat -> serialRx s = [] ->
  exists s',
    listenSerial t (receive (60 :: body ++ 62 :: rest) s) = Some s' /\
    frame_of s' = 60 :: take 30 body ++ [62] /\
    serialMessageActive s' = 0 /\ serialMessageAvailable s' = 1 /\
    serialRx s' = rest /\ length (serialData s') = 32%nat /\
    serialMessageLength s' = Z.of_nat (length (take 30 body)) + 2 /\
    drop (Z.to_nat (serialMessageLength s')) (serialData s') =
      drop (Z.to_nat (serialMessageLength s')) (serialData s) /\
    same_engine s s'.
Proof.
  intros Hb Ha Hn Hd Hrx.
  unfold listenSerial, receive. cbn [serialRx set_serialRx].
  rewrite Hrx. cbn [app].
  rewrite listenSerial_while_cons, listenSerial_body_begin by (simpl; done || lia).
  cbn [mbind option_bind].
  match goal with |- context [listenSerial_while t (body ++ 62 :: rest) ?s2] =>
    destruct (listenSerial_while_payload t body (62 :: rest) s2)
      as (s1 & E & Ha1 & Hv1 & Hd1 & Hn1 & Hf1 & Hdr1 & He1 & _ & _)
  end; try done.
  { simpl. by rewrite length_insert. }
  { simpl. lia. }
  rewrite E. clear E.
  simpl in Ha1, Hv1, Hd1, Hn1, Hf1, Hdr1, He1.
  rewrite Hn in Hn1, Hf1, Hdr1.
  change (Z.to_nat (31 - (0 + 1))) with 30%nat in *.
  change (Z.to_nat 0) with 0%nat in *. change (0 + 1) with 1 in *.
  assert (Hlen : (length (take 30 body) <= 30)%nat).
  { rewrite length_take. lia. }
  rewrite listenSerial_while_cons, listenSerial_body_end
    by (simpl; done || lia).
  simpl. eexists. split; [done|]. simpl.
  split_and!; try done.
  - unfold frame_of in *. simpl.
    replace (Z.to_nat (serialMessageLength s1 + 1))
      with (S (Z.to_nat (serialMessageLength s1))) by lia.
    rewrite take_append_insert by lia. rewrite Hf1.
    unfold frame_of. simpl.
    by destruct (serialData s) as [|x d]; [|rewrite <- app_assoc].
  - by rewrite length_insert.
  - lia.
  - rewrite drop_insert_lt by lia.
    replace (Z.to_nat (serialMessageLength s1 + 1))
      with (Z.to_nat (serialMessageLength s1) + 1)%nat by lia.
    rewrite <- !drop_drop, Hdr1, !drop_drop.
    rewrite drop_insert_lt by lia. done.
Qed.


(** ** The hex codec *)

Lemma charToNib_range c : 0 <= charToNib c <= 15.
Proof.
  unfold charToNib, u8.
  destruct (Z.geb_spec c 48), (Z.leb_spec c 57); simpl;
    [rewrite Z.mod_small; lia|..];
    (destruct (Z.geb_spec c 65), (Z.leb_spec c 70); simpl;
       [rewrite Z.mod_small; lia|..];
       (destruct (Z.geb_spec c 97), (Z.leb_spec c 102); simpl;
          [rewrite Z.mod_small; lia|..]; lia)).
Qed.

(** On a hexadecimal digit, in either case, [charToNib] is the digit's value
    as the standard library's [HexString] reads it. *)
Lemma charToNib_hex (a : ascii) (h : N) :
  HexString.ascii_to_digit a = Some h -> charToNib (code a) = Z.of_N h.
Proof.
  destruct a as [[] [] [] [] [] [] [] []]; vm_compute; intros H;
    first [discriminate H | by injection H as <-].
Qed.

Lemma charToNib_other c :
  ~ (48 <= c <= 57 \/ 65 <= c <= 70 \/ 97 <= c <= 102) -> charToNib c = 0.
Proof.
  intros H. unfold charToNib.
  destruct (Z.geb_spec c 48), (Z.leb_spec c 57); simpl; try lia;
    (destruct (Z.geb_spec c 65), (Z.leb_spec c 70); simpl; try lia;
       (destruct (Z.geb_spec c 97), (Z.leb_spec c 102); simpl; try lia; done)).
Qed.

Lemma readSerialByte_total i s :
  length (serialData s) = 32%nat -> 0 <= i < 31 ->
  readSerialByte i s =
    Some (u8 (charToNib (serialData s !!! Z.to_nat i) * 16 +
              charToNib (serialData s !!! Z.to_nat (i + 1)))).
Proof.
  intros Hd Hi. unfold readSerialByte.
  by rewrite !array_load_total by lia.
Qed.

Lemma readSerialByte_value c1 c2 :
  u8 (charToNib c1 * 16 + charToNib c2) = charToNib c1 * 16 + charToNib c2.
Proof.
  pose proof (charToNib_range c1). pose proof (charToNib_range c2).
  apply u8_small. lia.
Qed.

(** ** Dispatch and relay *)

Lemma processSerial_relay_spec s :
  length (serialData s) = 32%nat -> 0 <= serialMessageLength s <= 32 ->
  processSerial_relay s = Some (relayed s).
Proof.
  intros Hd Hn. unfold processSerial_relay, Serial_write.
  destruct (Z.leb_spec 0 (serialMessageLength s)); [|lia].
  destruct (Z.leb_spec (serialMessageLength s) (Z.of_nat (length (serialData s))));
    [|lia].
  simpl. unfold relayed, Serial_println, frame_of. simpl.
  by rewrite <- app_assoc.
Qed.

Lemma processSerial_config_fields addr cmd s :
  serialData (processSerial_config addr cmd s) = serialData s /\
  serialMessageLength (processSerial_config addr cmd s) = serialMessageLength s /\
  serialMessageActive (processSerial_config addr cmd s) = serialMessageActive s /\
  deviceAddress (processSerial_config addr cmd s) = deviceAddress s /\
  channelOnBitmask (processSerial_config addr cmd s) = channelOnBitmask s /\
  setChannelLastTime (processSerial_config addr cmd s) = setChannelLastTime s /\
  serialTx (processSerial_config addr cmd s) = serialTx s /\
  serialRx (processSerial_config addr cmd s) = serialRx s.
Proof.
  unfold processSerial_config.
  by destruct (addr =? 255), (addr =? 254).
Qed.

Lemma processSerial_config_cfg_ok addr cmd s :
  0 <= cmd < 256 -> cfg_ok s -> cfg_ok (processSerial_config addr cmd s).
Proof.
  intros Hc [Hon Hoff]. unfold processSerial_config, cfg_ok.
  destruct (addr =? 255), (addr =? 254); simpl;
    rewrite ?int16_small by lia; lia.
Qed.

(** [processSerial] on an available message: the configuration commands,
    then the on-requests if the address is the device's, then the relay. *)
Lemma processSerial_dispatch t s :
  length (serialData s) = 32%nat -> 0 <= serialMessageLength s <= 32 ->
  chan_ok s -> cfg_ok s -> serialMessageAvailable s <> 0 ->
  exists addr cmd s2,
    readSerialByte 1 s = Some addr /\ readSerialByte 3 s = Some cmd /\
    0 <= addr < 256 /\ 0 <= cmd < 256 /\
    processSerial t s = Some (relayed s2) /\
    only_channels (processSerial_config addr cmd s) s2 /\ chan_ok s2 /\
    (addr <> deviceAddress s -> s2 = processSerial_config addr cmd s) /\
    (addr = deviceAddress s ->
     forall j, 0 <= j < 8 ->
       channel s2 j =
         if Z.testbit cmd j
         then requestOn (millis t) (minChannelOffTime s2) (channel s j)
         else channel s j).
Proof.
  intros Hd Hn Hok Hcfg Hav.
  unfold processSerial. destruct (Z.eqb_spec (serialMessageAvailable s) 0); [done|].
  rewrite !readSerialByte_total by lia. cbn [mbind option_bind].
  set (addr := u8 _). set (cmd := u8 _).
  assert (Haddr : 0 <= addr < 256) by apply u8_range.
  assert (Hcmd : 0 <= cmd < 256) by apply u8_range.
  destruct (processSerial_config_fields addr cmd s)
    as (Fd & Fn & Fa & Fdev & Fm & Fl & Ftx & Frx).
  pose proof (processSerial_config_cfg_ok addr cmd s Hcmd Hcfg) as [Hon' Hoff'].
  assert (Hok1 : chan_ok (processSerial_config addr cmd s)).
  { unfold chan_ok. by rewrite Fm, Fl. }
  exists addr, cmd. rewrite Fdev.
  destruct (Z.eqb_spec addr (deviceAddress s)) as [Heq|Hne].
  - destruct (processSerial_loop_channels t cmd (processSerial_config addr cmd s))
      as (s2 & E & Hs2 & Hok2 & Hc2); [done|lia|].
    exists s2. rewrite E. simpl.
    assert (Hs2' := Hs2). destruct Hs2' as (m & l & ->).
    rewrite processSerial_relay_spec by (simpl; congruence).
    split_and!; try done; try lia.
    intros _ j Hj. rewrite Hc2 by done. unfold channel. simpl. by rewrite Fm, Fl.
  - exists (processSerial_config addr cmd s). simpl.
    rewrite processSerial_relay_spec by congruence.
    split_and!; try done; try lia. apply only_channels_refl.
Qed.

(** ** The invariant of the control cycle: no array is left, ever *)

Lemma listenSerial_body_u8 t c s :
  listenSerial_body t c s = listenSerial_body t (u8 c) s.
Proof.
  unfold listenSerial_body. simpl.
  by rewrite (u8_small (u8 c)) by apply u8_range.
Qed.

Lemma listenSerial_body_ok t c s :
  dec_ok s ->
  exists r s', listenSerial_body t c s = Some (r, s') /\ same_engine s s' /\
    length (serialData s') = 32%nat /\ serialRx s' = serialRx s /\
    if r : bool
    then serialMessageAvailable s' = 1 /\ 0 <= serialMessageLength s' <= 32
    else dec_ok s' /\ serialMessageAvailable s' = serialMessageAvailable s.
Proof.
  intros (Hd & Hn & Hidle). rewrite listenSerial_body_u8.
  pose proof (u8_range c) as Hc. generalize dependent (u8 c). clear c.
  intros c Hc.
  destruct (Z.eq_dec (serialMessageActive s) 0) as [Ha|Ha].
  - destruct (Z.eq_dec c 60) as [->|Hne].
    + rewrite listenSerial_body_begin by (done || lia).
      eexists _, _. split; [done|]. simpl.
      rewrite length_insert. unfold dec_ok. simpl. rewrite length_insert.
      split_and!; try done; lia.
    + rewrite listenSerial_body_ignored by (by rewrite ?u8_small).
      eexists _, _. split; [done|]. by split_and!.
  - destruct (Z.eq_dec c 62) as [->|Hne].
    + rewrite listenSerial_body_end by (done || lia).
      eexists _, _. split; [done|]. simpl. rewrite length_insert.
      split_and!; try done; lia.
    + destruct (Z.lt_ge_cases (serialMessageLength s) 31).
      * rewrite listenSerial_body_payload by (done || lia).
        eexists _, _. split; [done|]. simpl.
        rewrite length_insert. unfold dec_ok. simpl. rewrite length_insert.
        split_and!; try done; lia.
      * rewrite listenSerial_body_overflow by (done || lia).
        eexists _, _. split; [done|]. by split_and!.
Qed.

Lemma listenSerial_while_ok t rx :
  forall s, dec_ok s -> serialMessageAvailable s = 0 ->
  exists r s', listenSerial_while t rx s = Some (r, s') /\ same_engine s s' /\
    length (serialData s') = 32%nat /\
    if r : bool
    then serialMessageAvailable s' = 1 /\ 0 <= serialMessageLength s' <= 32
    else dec_ok s' /\ serialMessageAvailable s' = 0.
Proof.
  induction rx as [|c rx IH]; intros s Hdec Hav.
  - exists false, s. split; [done|]. split; [apply same_engine_refl|].
    split; [apply Hdec|done].
  - rewrite listenSerial_while_cons.
    destruct (listenSerial_body_ok t c (set_serialRx rx s))
      as (r & s1 & E & He & Hd1 & _ & Hr); [done|].
    rewrite E. simpl. destruct r.
    + exists true, s1. split; [done|]. split; [exact He|]. by split.
    + destruct Hr as [Hdec1 Hav1]. simpl in Hav1.
      destruct (IH s1) as (r & s2 & E2 & He2 & Hd2 & Hr2); [done|congruence|].
      exists r, s2. split; [done|]. split; [|done].
      eapply same_engine_trans; [exact He|done].
Qed.

Lemma listenSerial_ok t s :
  dec_ok s -> serialMessageAvailable s = 0 ->
  exists s', listenSerial t s = Some s' /\ same_engine s s' /\
    length (serialData s') = 32%nat /\ 0 <= serialMessageLength s' <= 32 /\
    (serialMessageAvailable s' = 0 -> dec_ok s').
Proof.
  intros Hdec Hav. unfold listenSerial.
  destruct (listenSerial_while_ok t (serialRx s) s)
    as (r & s1 & E & He & Hd1 & Hr); try done.
  rewrite E. simpl. destruct r.
  - destruct Hr as [Hav1 Hn1]. exists s1. split_and!; try done; lia.
  - destruct Hr as [(Hd & Hn & Hidle) Hav1].
    destruct (_ >? _).
    + eexists. split; [done|]. unfold dec_ok. simpl. split_and!; try done; lia.
    + exists s1. split_and!; try done; lia.
Qed.

Lemma setup_inv addr e : inv (setup addr e).
Proof.
  unfold setup, loadMinChannelOffTime, loadChannelOnTime, inv, dec_ok,
    chan_ok, cfg_ok.
  pose proof (u8_range (e 1)). pose proof (u8_range (e 3)).
  unfold EEPROM_read.
  destruct (_ =? _); simpl; destruct (_ =? _); simpl;
    rewrite ?int16_small by lia;
    unfold DEFAULT_CHANNEL_ON_TIME, DEFAULT_MIN_CHANNEL_OFF_TIME;
    split_and!; try done; lia.
Qed.

Lemma receive_inv bs s : inv s -> inv (receive bs s).
Proof. done. Qed.

(** Whatever arrives on the line and whenever the cycle runs, [loop()]
    stays inside its arrays and keeps the invariant. *)
Lemma loop_inv t s :
  inv s -> exists s', loop t s = Some s' /\ inv s'.
Proof.
  intros (Hdec & Hav & Hok & Hcfg). unfold loop.
  destruct (listenSerial_ok t s) as (s1 & E1 & He1 & Hd1 & Hn1 & Hdec1);
    try done.
  rewrite E1. simpl.
  destruct He1 as (Fdev & Fl & Fon & Foff & Fm & Fe & Ftx).
  assert (Hok1 : chan_ok s1) by (unfold chan_ok; by rewrite Fl, Fm).
  assert (Hcfg1 : cfg_ok s1) by (unfold cfg_ok; by rewrite Fon, Foff).
  assert (exists s2, processSerial t s1 = Some s2 /\ inv s2)
    as (s2 & E2 & (Hdec2 & Hav2 & Hok2 & Hcfg2)).
  { destruct (Z.eq_dec (serialMessageAvailable s1) 0) as [Hav1|Hav1].
    - exists s1. split; [by apply processSerial_idle|].
      by split_and!; auto.
    - destruct (processSerial_dispatch t s1)
        as (addr & cmd & s2 & _ & _ & _ & Hcmd & E & (m & l & ->) & Hok2 & _);
        try done.
      eexists. split; [done|].
      destruct (processSerial_config_fields addr cmd s1)
        as (Fd' & _).
      pose proof (processSerial_config_cfg_ok addr cmd s1 Hcmd Hcfg1).
      unfold inv, dec_ok. simpl. rewrite Fd'. by split_and!. }
  rewrite E2. simpl.
  destruct (checkResetChannels_channels t s2) as (s3 & E3 & (m & l & ->) & Hok3 & _);
    try done.
  { destruct Hcfg2. lia. }
  exists (with_channels m l s2). split; [done|]. by split_and!.
Qed.



(** ** The claims about dispatch *)

Lemma frame_of_lookup s f :
  frame_of s = f ->
  forall i, (i < length f)%nat -> serialData s !!! i = f !!! i.
Proof.
  intros <- i Hi. unfold frame_of in *.
  rewrite length_take in Hi.
  by rewrite lookup_total_take_lt by lia.
Qed.

Lemma frame_of_length s f :
  frame_of s = f -> length (serialData s) = 32%nat ->
  (0 < length f < 32)%nat -> serialMessageLength s = Z.of_nat (length f).
Proof.
  intros <- Hd Hf. unfold frame_of in *.
  rewrite length_take in *. lia.
Qed.

(** C1: in a completed frame [<aabb>] of four hexadecimal characters the
    dispatcher reads the address [aa] and the command [bb] at their literal
    hexadecimal values, and when the address is the device's own, every
    channel whose bit is 1 in the command receives the on-request
    ([requestOn]) and every channel whose bit is 0 is left as it was. *)
Theorem C1_decode_and_dispatch (t : Z) (s : State) (a1 a2 b1 b2 : ascii)
    (h1 h2 h3 h4 : N) :
  length (serialData s) = 32%nat -> chan_ok s -> cfg_ok s ->
  serialMessageAvailable s <> 0 ->
  frame_of s = [60; code a1; code a2; code b1; code b2; 62] ->
  ascii_to_digit a1 = Some h1 -> ascii_to_digit a2 = Some h2 ->
  ascii_to_digit b1 = Some h3 -> ascii_to_digit b2 = Some h4 ->
  readSerialByte 1 s = Some (Z.of_N h1 * 16 + Z.of_N h2) /\
  readSerialByte 3 s = Some (Z.of_N h3 * 16 + Z.of_N h4) /\
  exists s', processSerial t s = Some s' /\
    (Z.of_N h1 * 16 + Z.of_N h2 = deviceAddress s ->
     forall j, 0 <= j < 8 ->
       channel s' j =
         if Z.testbit (Z.of_N h3 * 16 + Z.of_N h4) j
         then requestOn (millis t) (minChannelOffTime s') (channel s j)
         else channel s j).
Proof.
  intros Hd Hok Hcfg Hav Hf H1 H2 H3 H4.
  pose proof (frame_of_length s _ Hf Hd ltac:(simpl; lia)) as Hn. simpl in Hn.
  pose proof (frame_of_lookup s _ Hf) as Hl.
  assert (E1 : readSerialByte 1 s = Some (Z.of_N h1 * 16 + Z.of_N h2)).
  { rewrite readSerialByte_total by lia.
    rewrite (Hl (Z.to_nat 1)), (Hl (Z.to_nat (1 + 1))) by (simpl; lia).
    change (Z.to_nat 1) with 1%nat. change (Z.to_nat (1 + 1)) with 2%nat.
    cbn [lookup_total list_lookup_total].
    rewrite readSerialByte_value, (charToNib_hex a1 h1), (charToNib_hex a2 h2);
      done. }
  assert (E3 : readSerialByte 3 s = Some (Z.of_N h3 * 16 + Z.of_N h4)).
  { rewrite readSerialByte_total by lia.
    rewrite (Hl (Z.to_nat 3)), (Hl (Z.to_nat (3 + 1))) by (simpl; lia).
    change (Z.to_nat 3) with 3%nat. change (Z.to_nat (3 + 1)) with 4%nat.
    cbn [lookup_total list_lookup_total].
    rewrite readSerialByte_value, (charToNib_hex b1 h3), (charToNib_hex b2 h4);
      done. }
  split; [done|]. split; [done|].
  destruct (processSerial_dispatch t s)
    as (addr & cmd & s2 & Ea & Ec & _ & _ & E & _ & _ & _ & Hc); try done; [lia|].
  rewrite E1 in Ea. rewrite E3 in Ec.
  injection Ea as <-. injection Ec as <-.
  exists (relayed s2). split; [done|]. exact Hc.
Qed.

Lemma C1_decode_and_dispatch_witness :
  (length (serialData (after_listen 1000 "<0194>" (setup 1 erased))) = 32%nat /\
   chan_ok (after_listen 1000 "<0194>" (setup 1 erased)) /\
   cfg_ok (after_listen 1000 "<0194>" (setup 1 erased)) /\
   serialMessageAvailable (after_listen 1000 "<0194>" (setup 1 erased)) <> 0 /\
   frame_of (after_listen 1000 "<0194>" (setup 1 erased)) =
     [60; code "0"; code "1"; code "9"; code "4"; 62]) /\
  readSerialByte 1 (after_listen 1000 "<0194>" (setup 1 erased)) = Some 1 /\
  readSerialByte 3 (after_listen 1000 "<0194>" (setup 1 erased)) = Some 148 /\
  exists s', processSerial 1000 (after_listen 1000 "<0194>" (setup 1 erased)) = Some s' /\
    channel s' 2 = (true, 1000) /\ channel s' 4 = (true, 1000) /\
    channel s' 7 = (true, 1000) /\ channel s' 0 = (false, 0).
Proof.
  split; [by vm_compute|].
  destruct (C1_decode_and_dispatch 1000
              (after_listen 1000 "<0194>" (setup 1 erased))
              "0" "1" "9" "4" 0 1 9 4
              ltac:(by vm_compute) ltac:(by vm_compute) ltac:(by vm_compute)
              ltac:(by vm_compute) ltac:(by vm_compute) ltac:(by vm_compute)
              ltac:(by vm_compute) ltac:(by vm_compute) ltac:(by vm_compute))
    as (E1 & E3 & s' & E & _).
  split; [exact E1|]. split; [exact E3|]. clear E1 E3.
  exists s'. split; [exact E|].
  vm_compute in E. injection E as <-.
  vm_compute. repeat split; reflexivity.
Defined.

(** C8: when the decoded address of a dispatched frame is not the device's
    own address (the configuration addresses 254 and 255 included), the
    channel bitmask and every channel's last transition time are after
    [processSerial] what they were before: the state is the relayed one,
    after the configuration command if the address is 254 or 255 (which
    writes the EEPROM cells and one timing variable) and untouched otherwise. *)
Theorem C8_unmatched_address_no_channel_action (t : Z) (s : State)
    (addr cmd : Z) :
  length (serialData s) = 32%nat -> 0 <= serialMessageLength s <= 32 ->
  serialMessageAvailable s <> 0 ->
  readSerialByte 1 s = Some addr -> readSerialByte 3 s = Some cmd ->
  addr <> deviceAddress s ->
  exists s', processSerial t s = Some s' /\
    channelOnBitmask s' = channelOnBitmask s /\
    setChannelLastTime s' = setChannelLastTime s /\
    s' = relayed (processSerial_config addr cmd s) /\
    (addr = 255 -> processSerial_config addr cmd s = setChannelOnTime cmd s) /\
    (addr = 254 -> processSerial_config addr cmd s = setMinChannelOffTime cmd s) /\
    (addr <> 254 -> addr <> 255 -> processSerial_config addr cmd s = s).
Proof.
  intros Hd Hn Hav Ea Ec Hne.
  destruct (processSerial_config_fields addr cmd s)
    as (Fd & Fn & _ & Fdev & Fm & Fl & _).
  exists (relayed (processSerial_config addr cmd s)).
  split.
  - unfold processSerial.
    destruct (Z.eqb_spec (serialMessageAvailable s) 0); [done|].
    rewrite Ea, Ec. cbn [mbind option_bind]. rewrite Fdev.
    destruct (Z.eqb_spec addr (deviceAddress s)); [done|].
    cbn [mbind option_bind].
    apply processSerial_relay_spec; congruence.
  - split; [exact Fm|]. split; [exact Fl|]. split; [done|].
    unfold processSerial_config. split_and!.
    + by intros ->.
    + by intros ->.
    + intros H4 H5.
      by destruct (Z.eqb_spec addr 255), (Z.eqb_spec addr 254).
Qed.

Lemma C8_unmatched_address_no_channel_action_witness :
  (length (serialData (after_listen 1000 "<FF19>" (setup 1 erased))) = 32%nat /\
   0 <= serialMessageLength (after_listen 1000 "<FF19>" (setup 1 erased)) <= 32 /\
   serialMessageAvailable (after_listen 1000 "<FF19>" (setup 1 erased)) <> 0 /\
   readSerialByte 1 (after_listen 1000 "<FF19>" (setup 1 erased)) = Some 255 /\
   readSerialByte 3 (after_listen 1000 "<FF19>" (setup 1 erased)) = Some 25 /\
   255 <> deviceAddress (after_listen 1000 "<FF19>" (setup 1 erased))) /\
  exists s', processSerial 1000 (after_listen 1000 "<FF19>" (setup 1 erased)) = Some s' /\
    channelOnBitmask s' = 0 /\
    setChannelLastTime s' = [0; 0; 0; 0; 0; 0; 0; 0].
Proof.
  split; [by vm_compute|].
  destruct (C8_unmatched_address_no_channel_action 1000
              (after_listen 1000 "<FF19>" (setup 1 erased)) 255 25
              ltac:(by vm_compute) ltac:(by vm_compute) ltac:(by vm_compute)
              ltac:(by vm_compute) ltac:(by vm_compute) ltac:(by vm_compute))
    as (s' & E & Hm & Hl & _).
  exists s'. split; [exact E|]. split; [exact Hm | exact Hl].
Defined.

(** ** The timing configuration and the EEPROM *)

Lemma setup_channelOnTime addr e v :
  0 <= v < 256 -> e 0 = 100 -> e 1 = v ->
  channelOnTime (setup addr e) = v * 10.
Proof.
  intros Hv H0 H1. unfold setup.
  assert (E : forall s, channelOnTime (loadMinChannelOffTime s) = channelOnTime s).
  { intros s. unfold loadMinChannelOffTime. by destruct (_ =? _). }
  rewrite E. unfold loadChannelOnTime, EEPROM_read. simpl.
  rewrite H0, H1. simpl.
  by rewrite (u8_small v), int16_small by lia.
Qed.

Lemma setup_minChannelOffTime addr e v :
  0 <= v < 256 -> e 2 = 100 -> e 3 = v ->
  minChannelOffTime (setup addr e) = v * 10.
Proof.
  intros Hv H2 H3. unfold setup.
  assert (E : forall s, eeprom (loadChannelOnTime s) = eeprom s).
  { intros s. unfold loadChannelOnTime. by destruct (_ =? _). }
  unfold loadMinChannelOffTime, EEPROM_read. rewrite E. simpl.
  rewrite H2, H3. simpl.
  by rewrite (u8_small v), int16_small by lia.
Qed.

(** C4: processing a set-on-time command (address 0xFF, command byte [v])
    leaves the flag 100 in EEPROM cell 0 and [v] in cell 1 and sets
    [channelOnTime] to [v * 10]; [setup()] on the resulting EEPROM, on a
    device of any address, sets [channelOnTime] to [v * 10] again.  The same
    holds for address 0xFE with cells 2 and 3 and [minChannelOffTime]. *)
Theorem C4_config_roundtrip (t : Z) (s : State) (addr v : Z) :
  length (serialData s) = 32%nat -> 0 <= serialMessageLength s <= 32 ->
  chan_ok s -> cfg_ok s -> serialMessageAvailable s <> 0 ->
  readSerialByte 1 s = Some addr -> readSerialByte 3 s = Some v ->
  exists s', processSerial t s = Some s' /\
    (addr = 255 ->
     eeprom s' 0 = 100 /\ eeprom s' 1 = v /\ channelOnTime s' = v * 10 /\
     forall a, channelOnTime (setup a (eeprom s')) = v * 10) /\
    (addr = 254 ->
     eeprom s' 2 = 100 /\ eeprom s' 3 = v /\ minChannelOffTime s' = v * 10 /\
     forall a, minChannelOffTime (setup a (eeprom s')) = v * 10).
Proof.
  intros Hd Hn Hok Hcfg Hav Ea Ev.
  destruct (processSerial_dispatch t s)
    as (addr' & v' & s2 & Ea' & Ev' & _ & Hv & E & (m & l & ->) & _); try done.
  rewrite Ea in Ea'. rewrite Ev in Ev'.
  injection Ea' as <-. injection Ev' as <-.
  eexists. split; [exact E|].
  split; intros ->; unfold processSerial_config; simpl.
  - assert (E0 : (<[1:=u8 v]> (<[0:=u8 EEPROM_SET_FLAG]> (eeprom s)) : Z -> Z) 0 = 100).
    { by rewrite fn_lookup_insert_ne, fn_lookup_insert by done. }
    assert (E1 : (<[1:=u8 v]> (<[0:=u8 EEPROM_SET_FLAG]> (eeprom s)) : Z -> Z) 1 = v).
    { by rewrite fn_lookup_insert, u8_small. }
    split; [exact E0|]. split; [exact E1|].
    split; [apply int16_small; lia|].
    intros a. by apply setup_channelOnTime.
  - assert (E2 : (<[3:=u8 v]> (<[2:=u8 EEPROM_SET_FLAG]> (eeprom s)) : Z -> Z) 2 = 100).
    { by rewrite fn_lookup_insert_ne, fn_lookup_insert by done. }
    assert (E3 : (<[3:=u8 v]> (<[2:=u8 EEPROM_SET_FLAG]> (eeprom s)) : Z -> Z) 3 = v).
    { by rewrite fn_lookup_insert, u8_small. }
    split; [exact E2|]. split; [exact E3|].
    split; [apply int16_small; lia|].
    intros a. by apply setup_minChannelOffTime.
Qed.

Lemma C4_config_roundtrip_witness :
  (length (serialData (after_listen 1000 "<FF19>" (setup 1 erased))) = 32%nat /\
   0 <= serialMessageLength (after_listen 1000 "<FF19>" (setup 1 erased)) <= 32 /\
   chan_ok (after_listen 1000 "<FF19>" (setup 1 erased)) /\
   cfg_ok (after_listen 1000 "<FF19>" (setup 1 erased)) /\
   serialMessageAvailable (after_listen 1000 "<FF19>" (setup 1 erased)) <> 0 /\
   readSerialByte 1 (after_listen 1000 "<FF19>" (setup 1 erased)) = Some 255 /\
   readSerialByte 3 (after_listen 1000 "<FF19>" (setup 1 erased)) = Some 25) /\
  exists s', processSerial 1000 (after_listen 1000 "<FF19>" (setup 1 erased)) = Some s' /\
    channelOnTime s' = 250 /\ channelOnTime (setup 1 (eeprom s')) = 250.
Proof.
  split; [by vm_compute|].
  destruct (C4_config_roundtrip 1000
              (after_listen 1000 "<FF19>" (setup 1 erased)) 255 25
              ltac:(by vm_compute) ltac:(by vm_compute) ltac:(by vm_compute)
              ltac:(by vm_compute) ltac:(by vm_compute) ltac:(by vm_compute)
              ltac:(by vm_compute))
    as (s' & E & H255 & _).
  destruct (H255 eq_refl) as (_ & _ & Hon & Hboot).
  exists s'. split; [exact E|]. split; [exact Hon | exact (Hboot 1)].
Defined.

(** ** The relay *)

(** A cycle in which a whole frame arrives while the decoder listens. *)
Lemma loop_frame t body rest s :
  inv s -> serialMessageActive s = 0 -> serialRx s = [] ->
  Forall (fun c => 0 <= c < 256 /\ c <> 62) body ->
  exists s1 s2 s',
    listenSerial t (receive (60 :: body ++ 62 :: rest) s) = Some s1 /\
    frame_of s1 = 60 :: take 30 body ++ [62] /\
    processSerial t s1 = Some s2 /\
    serialTx s2 = serialTx s ++ (60 :: take 30 body ++ [62]) ++ [13; 10] /\
    loop t (receive (60 :: body ++ 62 :: rest) s) = Some s' /\
    serialTx s' = serialTx s ++ (60 :: take 30 body ++ [62]) ++ [13; 10] /\
    serialRx s' = rest /\ serialMessageActive s' = 0 /\ inv s'.
Proof.
  intros Hinv Ha Hrx Hb.
  destruct (loop_inv t (receive (60 :: body ++ 62 :: rest) s)) as (s'' & El & Hinv');
    [by apply receive_inv|].
  destruct Hinv as ((Hd & Hn & Hidle) & Hav & Hok & Hcfg).
  destruct (listenSerial_frame t body rest s)
    as (s1 & E1 & Hf1 & Ha1 & Hv1 & Hrx1 & Hd1 & Hn1 & _ & He1); auto.
  assert (Hlen : (length (take 30 body) <= 30)%nat) by (rewrite length_take; lia).
  destruct He1 as (Fdev & Fl & Fon & Foff & Fm & Fe & Ftx).
  destruct (processSerial_dispatch t s1)
    as (addr & cmd & s2 & _ & _ & _ & Hcmd & E2 & (m & l & ->) & Hok2 & _);
    try done; try lia.
  { unfold chan_ok. by rewrite Fl, Fm. }
  { unfold cfg_ok. by rewrite Fon, Foff. }
  assert (Hcfg1 : cfg_ok s1) by (unfold cfg_ok; by rewrite Fon, Foff).
  pose proof (processSerial_config_cfg_ok addr cmd s1 Hcmd Hcfg1) as [Hc1 _].
  destruct (processSerial_config_fields addr cmd s1)
    as (Gd & Gn & Ga & _ & _ & _ & Gtx & Grx).
  set (s2 := with_channels m l (processSerial_config addr cmd s1)) in *.
  assert (Htx2 : serialTx (relayed s2) =
                 serialTx s ++ (60 :: take 30 body ++ [62]) ++ [13; 10]).
  { unfold relayed, frame_of, s2. simpl. rewrite Gtx, Gd, Gn, Ftx.
    unfold frame_of in Hf1. by rewrite Hf1. }
  exists s1, (relayed s2), s''.
  split; [done|]. split; [done|]. split; [done|]. split; [done|].
  split; [done|].
  unfold loop in El. rewrite E1 in El. cbn [mbind option_bind] in El.
  rewrite E2 in El. cbn [mbind option_bind] in El.
  destruct (checkResetChannels_channels t (relayed s2))
    as (s3 & E3 & (m3 & l3 & ->) & _); [done|simpl; lia|].
  rewrite E3 in El. injection El as <-.
  split; [exact Htx2|]. split; [simpl; congruence|].
  split; [simpl; congruence|done].
Qed.




(** C6: while a message is active, a byte other than the end marker is
    stored at the end of the frame exactly when fewer than 31 bytes are held
    (the 32 of the buffer less the one kept for the end marker); with 31
    bytes held it is dropped, and buffer, length, decoder state and
    everything outside the decoder stay as they were (like every byte read,
    it is kept in [serialNextChar] and restarts the timeout).  The end marker is
    itself stored, makes the message available and ends the active state.
    Hence the frame handed to the dispatcher has at most 32 bytes, markers
    included: on the line, its begin marker, the first 30 bytes that follow
    and the end marker. *)
Theorem C6_accumulate_within_capacity (t c : Z) (s : State) :
  length (serialData s) = 32%nat -> serialMessageActive s <> 0 ->
  0 <= serialMessageLength s <= 31 -> 0 <= c < 256 ->
  (c <> 62 -> serialMessageLength s < 31 ->
   exists s', listenSerial_body t c s = Some (false, s') /\
     frame_of s' = frame_of s ++ [c] /\
     serialMessageLength s' = serialMessageLength s + 1 /\
     serialMessageActive s' = serialMessageActive s /\
     serialMessageAvailable s' = serialMessageAvailable s) /\
  (c <> 62 -> serialMessageLength s = 31 ->
   exists s', listenSerial_body t c s = Some (false, s') /\
     serialData s' = serialData s /\
     serialMessageLength s' = serialMessageLength s /\
     serialMessageActive s' = serialMessageActive s /\
     serialMessageAvailable s' = serialMessageAvailable s /\
     same_engine s s') /\
  (c = 62 ->
   exists s', listenSerial_body t c s = Some (true, s') /\
     frame_of s' = frame_of s ++ [62] /\
     serialMessageLength s' = serialMessageLength s + 1 /\
     serialMessageActive s' = 0 /\ serialMessageAvailable s' = 1 /\
     serialMessageLength s' <= 32) /\
  (forall t0 s0 body rest,
     inv s0 -> serialMessageActive s0 = 0 -> serialRx s0 = [] ->
     Forall (fun b => 0 <= b < 256 /\ b <> 62) body ->
     exists s1, listenSerial t0 (receive (60 :: body ++ 62 :: rest) s0) = Some s1 /\
       serialMessageAvailable s1 = 1 /\
       frame_of s1 = 60 :: take 30 body ++ [62] /\
       (length (frame_of s1) <= 32)%nat).
Proof.
  intros Hd Ha Hn Hc. split_and!.
  - intros Hne Hlt. eexists.
    split; [apply listenSerial_body_payload; (done || lia)|].
    split; [apply frame_of_stored; (done || lia)|]. done.
  - intros Hne Hfull. eexists.
    split; [apply listenSerial_body_overflow; (done || lia)|].
    split_and!; try done; apply same_engine_refl.
  - intros ->. eexists.
    split; [apply listenSerial_body_end; (done || lia)|].
    split.
    { unfold frame_of. simpl.
      replace (Z.to_nat (serialMessageLength s + 1))
        with (S (Z.to_nat (serialMessageLength s))) by lia.
      apply take_append_insert. lia. }
    simpl. split_and!; try done. lia.
  - intros t0 s0 body rest Hinv Ha0 Hrx0 Hb.
    destruct (loop_frame t0 body rest s0)
      as (s1 & _ & _ & E1 & Hf1 & _); try done.
    destruct Hinv as ((Hd0 & Hn0 & Hidle0) & _).
    destruct (listenSerial_frame t0 body rest s0)
      as (s1' & E1' & _ & _ & Hv1 & _); auto.
    rewrite E1 in E1'. injection E1' as <-.
    exists s1. split_and!; try done.
    assert (Hlen : (length (take 30 body) <= 30)%nat)
      by (rewrite length_take; lia).
    rewrite Hf1. cbn [length]. rewrite length_app. cbn [length]. lia.
Qed.

Lemma C6_accumulate_within_capacity_witness :
  (length (serialData (after_listen 5 "<01" (setup 1 erased))) = 32%nat /\
   serialMessageActive (after_listen 5 "<01" (setup 1 erased)) <> 0 /\
   0 <= serialMessageLength (after_listen 5 "<01" (setup 1 erased)) <= 31 /\
   0 <= 57 < 256) /\
  exists s', listenSerial_body 6 57 (after_listen 5 "<01" (setup 1 erased)) =
               Some (false, s') /\
             frame_of s' = bytes "<019".
Proof.
  split; [by vm_compute|].
  destruct (C6_accumulate_within_capacity 6 57
              (after_listen 5 "<01" (setup 1 erased))
              ltac:(by vm_compute) ltac:(by vm_compute) ltac:(by vm_compute)
              ltac:(by vm_compute)) as (H & _).
  destruct (H ltac:(by vm_compute) ltac:(by vm_compute)) as (s' & E & Hf & _).
  exists s'. split; [exact E | exact Hf].
Defined.



(** ** The stalled transmitter *)






(** ** Malformed frames *)

Lemma lookup_total_drop_eq (l1 l2 : list Z) (n : nat) :
  drop n l1 = drop n l2 -> l1 !!! n = l2 !!! n.
Proof.
  intros H. rewrite <- (Nat.add_0_r n), <- !lookup_total_drop. by rewrite H.
Qed.

(** C9: the short frame ["<zz>"] is processed without any access outside
    the buffer (the whole cycle returns a state, and the invariant of the
    cycle holds after it).  Every character that is not a hexadecimal digit,
    ['z'] and ['>'] among them, decodes to nibble 0, so the address read at
    positions 1 and 2 is 0 and the command read at positions 3 and 4 is the
    nibble of whatever byte the buffer holds at position 4 from before; the
    channels after the dispatch are the function of this address and this
    command that they are for any frame. *)
Theorem C9_malformed_short_frame (t : Z) (s : State) :
  inv s -> serialMessageActive s = 0 -> serialRx s = [] ->
  (charToNib 122 = 0 /\ charToNib 62 = 0 /\
   forall c, ~ (48 <= c <= 57 \/ 65 <= c <= 70 \/ 97 <= c <= 102) ->
             charToNib c = 0) /\
  exists s1 s2 s',
    listenSerial t (receive (bytes "<zz>") s) = Some s1 /\
    frame_of s1 = bytes "<zz>" /\
    length (serialData s1) = 32%nat /\
    readSerialByte 1 s1 = Some 0 /\
    readSerialByte 3 s1 = Some (charToNib (serialData s !!! 4%nat)) /\
    processSerial t s1 = Some s2 /\
    (forall j, 0 <= j < 8 ->
       channel s2 j =
         if (0 =? deviceAddress s) &&
            Z.testbit (charToNib (serialData s !!! 4%nat)) j
         then requestOn (millis t) (minChannelOffTime s) (channel s j)
         else channel s j) /\
    loop t (receive (bytes "<zz>") s) = Some s' /\ inv s'.
Proof.
  intros Hinv Ha Hrx.
  split; [split_and!; [done|done|apply charToNib_other]|].
  change (bytes "<zz>") with (60 :: [122; 122] ++ 62 :: []).
  assert (Hb : Forall (fun c => 0 <= c < 256 /\ c <> 62) [122; 122])
    by (repeat constructor; lia).
  destruct (loop_frame t [122; 122] [] s)
    as (s1 & s2 & s' & E1 & Hf1 & E2 & _ & El & _ & _ & _ & Hinv'); try done.
  destruct Hinv as ((Hd & Hn & Hidle) & Hav & Hok & Hcfg).
  destruct (listenSerial_frame t [122; 122] [] s)
    as (s1' & E1' & _ & _ & Hv1 & _ & Hd1 & Hn1 & Hdr1 & He1); auto.
  rewrite E1 in E1'. injection E1' as <-.
  simpl in Hf1, Hn1.
  replace (Z.to_nat (serialMessageLength s1)) with 4%nat in Hdr1 by lia.
  pose proof (frame_of_lookup s1 _ Hf1) as Hl.
  destruct He1 as (Fdev & Fl & Fon & Foff & Fm & Fe & Ftx).
  assert (Ea : readSerialByte 1 s1 = Some 0).
  { rewrite readSerialByte_total by lia.
    by rewrite (Hl (Z.to_nat 1)), (Hl (Z.to_nat (1 + 1))) by (simpl; lia). }
  assert (Ec : readSerialByte 3 s1 = Some (charToNib (serialData s !!! 4%nat))).
  { rewrite readSerialByte_total by lia.
    rewrite (Hl (Z.to_nat 3)) by (simpl; lia).
    change (Z.to_nat (3 + 1)) with 4%nat.
    rewrite (lookup_total_drop_eq _ _ _ Hdr1).
    change ([60; 122; 122; 62] !!! Z.to_nat 3) with 62.
    change (charToNib 62) with 0. simpl.
    apply f_equal, u8_small. pose proof (charToNib_range (serialData s !!! 4%nat)).
    lia. }
  exists s1, s2, s'.
  split; [done|]. split; [done|]. split; [done|]. split; [done|].
  split; [done|]. split; [done|]. split; [|done].
  destruct (processSerial_dispatch t s1)
    as (addr & cmd & s2' & Ea' & Ec' & _ & _ & E2' & Hs2 & _ & Hne & Heq);
    try done; try lia.
  { unfold chan_ok. by rewrite Fl, Fm. }
  { unfold cfg_ok. by rewrite Fon, Foff. }
  rewrite Ea in Ea'. rewrite Ec in Ec'. injection Ea' as <-. injection Ec' as <-.
  rewrite E2 in E2'. injection E2' as ->.
  assert (Hcfg0 : forall c, processSerial_config 0 c s1 = s1) by done.
  rewrite Hcfg0 in *.
  assert (Hch : forall j, channel s1 j = channel s j).
  { intros j. unfold channel. by rewrite Fm, Fl. }
  assert (Hoff2 : minChannelOffTime s2' = minChannelOffTime s).
  { rewrite (only_channels_minChannelOffTime s1 s2') by done. done. }
  intros j Hj. change (channel (relayed s2') j) with (channel s2' j).
  destruct (Z.eqb_spec 0 (deviceAddress s)) as [Heq0|Hne0]; simpl.
  - rewrite Heq by (done || congruence). by rewrite Hoff2, Hch.
  - rewrite Hne by congruence. simpl. apply Hch.
Qed.

Lemma C9_malformed_short_frame_witness :
  (inv (setup 0 erased) /\ serialMessageActive (setup 0 erased) = 0 /\
   serialRx (setup 0 erased) = []) /\
  exists s', loop 1000 (receive (bytes "<zz>") (setup 0 erased)) = Some s' /\
             inv s'.
Proof.
  split; [split; [apply setup_inv|by split]|].
  destruct (C9_malformed_short_frame 1000 (setup 0 erased)
              (setup_inv 0 erased) eq_refl eq_refl)
    as (_ & _ & _ & s' & _ & _ & _ & _ & _ & _ & _ & El & Hinv).
  exists s'. split; [exact El | exact Hinv].
Defined.

(** ** The output stage *)

Lemma u8_bits_eq a b :
  (forall k, 0 <= k < 8 -> Z.testbit (u8 a) k = Z.testbit (u8 b) k) ->
  u8 a = u8 b.
Proof.
  intros H. apply Z.bits_inj'. intros k Hk.
  destruct (Z.lt_ge_cases k 8); [apply H; lia|].
  unfold u8. change 256 with (2 ^ 8).
  by rewrite !Z.mod_pow2_bits_high by lia.
Qed.

Lemma testbit_bitWrite_bitRead v bit out i k :
  0 <= bit -> 0 <= i -> 0 <= k < 8 ->
  Z.testbit (u8 (bitWrite v bit (bitRead out i))) k =
    if k =? bit then Z.testbit out i else Z.testbit v k.
Proof.
  intros Hb Hi Hk. rewrite testbit_u8 by done. unfold bitWrite.
  rewrite bitRead_testbit by done.
  destruct (Z.testbit out i); simpl.
  - rewrite testbit_bitSet by lia. destruct (Z.eqb_spec k bit); [|by rewrite orb_false_r].
    by rewrite orb_true_r.
  - rewrite testbit_bitClear by lia.
    destruct (Z.eqb_spec k bit); [by rewrite andb_false_r|by rewrite andb_true_r].
Qed.

(** Bit [k] of the byte for the shift register is the channel wired to
    output [k] of the register. *)
Lemma allChannelOutput_bus_bits out junk :
  exists m, allChannelOutput_bus 8 0 out junk = Some (u8 m) /\
    Z.testbit (u8 m) 0 = Z.testbit out 6 /\
    Z.testbit (u8 m) 1 = Z.testbit out 2 /\
    Z.testbit (u8 m) 2 = Z.testbit out 0 /\
    Z.testbit (u8 m) 3 = Z.testbit out 1 /\
    Z.testbit (u8 m) 4 = Z.testbit out 3 /\
    Z.testbit (u8 m) 5 = Z.testbit out 4 /\
    Z.testbit (u8 m) 6 = Z.testbit out 7 /\
    Z.testbit (u8 m) 7 = Z.testbit out 5.
Proof.
  eexists. split; [reflexivity|].
  split_and!; by rewrite !testbit_bitWrite_bitRead by (vm_compute; done || (split; congruence)).
Qed.

Lemma allChannelOutput_pwm_ops out :
  allChannelOutput_pwm 4 0 out =
    Some [AnalogWrite MOTOR1_PWM (pwm_value out 0);
          AnalogWrite MOTOR2_PWM (pwm_value out 1);
          AnalogWrite MOTOR3_PWM (pwm_value out 2);
          AnalogWrite MOTOR4_PWM (pwm_value out 3)].
Proof.
  unfold pwm_value. cbn -[Z.testbit Z.mul Z.add bitRead].
  rewrite !bitRead_testbit by lia. closed_bit_indices.
  by destruct (Z.testbit out 0), (Z.testbit out 1), (Z.testbit out 2),
    (Z.testbit out 3), (Z.testbit out 4), (Z.testbit out 5),
    (Z.testbit out 6), (Z.testbit out 7).
Qed.

(** One [allChannelOutput]: the pin set-up if it is the first, then the
    byte and the four PWM values. *)
Lemma allChannelOutput_trace out junk b :
  exists m,
    allChannelOutput_bus 8 0 out (u8 junk) = Some (u8 m) /\
    allChannelOutput out junk b =
      Some (hw_call (output_ops out (u8 m))
              (set_latch_copy (u8 m)
                 (if shift_register_initialized b =? 0
                  then set_shift_register_initialized 1
                         (set_latch_copy 0 (hw_call shiftWriteAll_init b))
                  else b))).
Proof.
  destruct (allChannelOutput_bus_bits out (u8 junk)) as (m & E & _).
  exists m. split; [done|].
  unfold allChannelOutput. rewrite E. cbn [mbind option_bind].
  rewrite allChannelOutput_pwm_ops. cbn [mbind option_bind].
  unfold shiftWriteAll, hw_call, output_ops. simpl.
  rewrite (u8_small (u8 m)) by apply u8_range.
  by rewrite <- app_assoc.
Qed.

Lemma last_shifted_output_ops l out m :
  last_shifted (l ++ output_ops out m) = Some m.
Proof.
  unfold last_shifted. rewrite omap_app. simpl.
  by rewrite last_snoc.
Qed.

(** X1: whatever the uninitialised local [motorChannels] of
    [allChannelOutput] holds, the byte shifted out to the 74HC595 has, for
    every channel [i], bit [motorBus[i]] equal to bit [i] of the channel
    mask: the eight writes cover all eight bits, so the hardware calls do
    not depend on the junk, and two masks that differ in their low eight
    bits give different bytes. *)
Theorem X1_allChannelOutput_shift_register (out junk : Z) (b : Board) :
  exists b' m,
    allChannelOutput out junk b = Some b' /\
    last_shifted (hw b') = Some m /\ 0 <= m < 256 /\
    (forall i bit, 0 <= i < 8 -> motorBus !! Z.to_nat i = Some bit ->
       Z.testbit m bit = Z.testbit out i) /\
    (forall junk', allChannelOutput out junk' b = Some b') /\
    (forall out' b2 m2,
       allChannelOutput out' junk b = Some b2 ->
       last_shifted (hw b2) = Some m2 -> m2 = m -> u8 out' = u8 out).
Proof.
  destruct (allChannelOutput_trace out junk b) as (m & Em & E).
  destruct (allChannelOutput_bus_bits out (u8 junk))
    as (m0 & Em0 & H0 & H1 & H2 & H3 & H4 & H5 & H6 & H7).
  rewrite Em in Em0. injection Em0 as Em0. rewrite <- Em0 in *. clear m0 Em0.
  eexists _, (u8 m). split; [exact E|].
  split; [apply last_shifted_output_ops|]. split; [apply u8_range|].
  split; [|split].
  - intros i bit Hi Hbit.
    assert (i = 0 \/ i = 1 \/ i = 2 \/ i = 3 \/ i = 4 \/ i = 5 \/ i = 6 \/ i = 7)
      as Hcases by lia.
    destruct Hcases as [->|[->|[->|[->|[->|[->|[->| ->]]]]]]];
      injection Hbit as <-; done.
  - intros junk'.
    destruct (allChannelOutput_trace out junk' b) as (m' & Em' & E').
    destruct (allChannelOutput_bus_bits out (u8 junk'))
      as (m0 & Em0 & G0 & G1 & G2 & G3 & G4 & G5 & G6 & G7).
    rewrite Em' in Em0. injection Em0 as Em0. rewrite <- Em0 in *. clear m0 Em0.
    assert (Heq : u8 m' = u8 m).
    { apply u8_bits_eq. intros k Hk.
      assert (k = 0 \/ k = 1 \/ k = 2 \/ k = 3 \/ k = 4 \/ k = 5 \/ k = 6 \/ k = 7)
        as Hcases by lia.
      destruct Hcases as [->|[->|[->|[->|[->|[->|[->| ->]]]]]]]; congruence. }
    rewrite E'. by rewrite Heq.
  - intros out' b2 m2 E2 Hl2 ->.
    destruct (allChannelOutput_trace out' junk b) as (m' & Em' & E').
    destruct (allChannelOutput_bus_bits out' (u8 junk))
      as (m0 & Em0 & G0 & G1 & G2 & G3 & G4 & G5 & G6 & G7).
    rewrite Em' in Em0. injection Em0 as Em0. rewrite <- Em0 in *. clear m0 Em0.
    rewrite E' in E2. injection E2 as <-.
    cbn [hw hw_call] in Hl2.
    rewrite last_shifted_output_ops in Hl2. injection Hl2 as Heq.
    apply u8_bits_eq. intros k Hk. rewrite !testbit_u8 by done.
    assert (k = 0 \/ k = 1 \/ k = 2 \/ k = 3 \/ k = 4 \/ k = 5 \/ k = 6 \/ k = 7)
      as Hcases by lia.
    destruct Hcases as [->|[->|[->|[->|[->|[->|[->| ->]]]]]]]; congruence.
Qed.

Lemma last_pwm_output_ops l out m :
  last_pwm MOTOR1_PWM (l ++ output_ops out m) = Some (pwm_value out 0) /\
  last_pwm MOTOR2_PWM (l ++ output_ops out m) = Some (pwm_value out 1) /\
  last_pwm MOTOR3_PWM (l ++ output_ops out m) = Some (pwm_value out 2) /\
  last_pwm MOTOR4_PWM (l ++ output_ops out m) = Some (pwm_value out 3).
Proof.
  unfold last_pwm. rewrite !omap_app. simpl.
  split_and!; by rewrite last_snoc.
Qed.


(** ** The hardware test *)

Lemma delayed_app l1 l2 : delayed (l1 ++ l2) = delayed l1 + delayed l2.
Proof.
  induction l1 as [|op l1 IH]; [done|].
  simpl. destruct op; rewrite ?IH; lia.
Qed.

Lemma pin_setups_app l1 l2 :
  pin_setups (l1 ++ l2) = (pin_setups l1 + pin_setups l2)%nat.
Proof.
  induction l1 as [|op l1 IH]; [done|].
  simpl. destruct op; rewrite ?IH; lia.
Qed.

(** One run of [hardwareTestLoop] with the counters in range. *)
Lemma hardwareTestLoop_step junk b :
  0 <= testHardwareSolenoidCount b < 8 ->
  0 <= testHardwarePauseCount b < 10 ->
  exists b' m,
    hardwareTestLoop junk b = Some b' /\
    allChannelOutput_bus 8 0
      (if testHardwarePauseCount b =? 0
       then u8 (Z.shiftl 1 (testHardwareSolenoidCount b)) else 0)
      (u8 junk) = Some (u8 m) /\
    testHardwarePauseCount b' =
      (if testHardwarePauseCount b =? 9 then 0 else testHardwarePauseCount b + 1) /\
    testHardwareSolenoidCount b' =
      (if testHardwarePauseCount b =? 9
       then (if testHardwareSolenoidCount b =? 7 then 0
             else testHardwareSolenoidCount b + 1)
       else testHardwareSolenoidCount b) /\
    shift_register_initialized b' =
      (if shift_register_initialized b =? 0 then 1
       else shift_register_initialized b) /\
    hw b' =
      hw b ++
      (if shift_register_initialized b =? 0 then shiftWriteAll_init else []) ++
      output_ops
        (if testHardwarePauseCount b =? 0
         then u8 (Z.shiftl 1 (testHardwareSolenoidCount b)) else 0) (u8 m) ++
      (if (testHardwarePauseCount b =? 9) && (testHardwareSolenoidCount b =? 7)
       then [Delay 3000] else []) ++
      [Delay 100].
Proof.
  intros Hc Hp. unfold hardwareTestLoop.
  set (mask := if testHardwarePauseCount b =? 0
               then u8 (Z.shiftl 1 (testHardwareSolenoidCount b)) else 0).
  destruct (allChannelOutput_trace mask junk b) as (m & Em & E).
  assert (E' : (if testHardwarePauseCount b =? 0
                then allChannelOutput (u8 (Z.shiftl 1 (testHardwareSolenoidCount b))) junk b
                else allChannelOutput 0 junk b) = allChannelOutput mask junk b).
  { unfold mask. by destruct (_ =? _). }
  rewrite E', E. cbn [mbind option_bind].
  eexists _, m. split; [reflexivity|]. split; [exact Em|].
  clear E E' Em. subst mask. destruct b as [c p ini lc tr].
  cbn [testHardwareSolenoidCount testHardwarePauseCount
       shift_register_initialized hw] in *.
  destruct (Z.eqb_spec p 9) as [E9|N9];
    destruct (Z.eqb_spec c 7) as [E7|N7];
    destruct (Z.eqb_spec ini 0) as [->|Hini];
    cbn -[u8 Z.eqb Z.add output_ops shiftWriteAll_init Z.shiftl];
    rewrite ?(u8_small (c + 1)), ?(u8_small (p + 1)) by lia;
    destruct (Z.eqb_spec (p + 1) 10); try lia;
    destruct (Z.eqb_spec (c + 1) 8); try lia;
    cbn -[u8 Z.eqb Z.add output_ops shiftWriteAll_init Z.shiftl];
    split_and!; try done; rewrite <- ?app_assoc; done.
Qed.

Lemma test_counters_next N :
  0 <= N ->
  (N + 1) mod 10 = (if N mod 10 =? 9 then 0 else N mod 10 + 1) /\
  ((N + 1) / 10) mod 8 =
    (if N mod 10 =? 9
     then (if (N / 10) mod 8 =? 7 then 0 else (N / 10) mod 8 + 1)
     else (N / 10) mod 8) /\
  (N + 1) / 80 =
    N / 80 + (if (N mod 10 =? 9) && ((N / 10) mod 8 =? 7) then 1 else 0).
Proof.
  intros HN.
  destruct (Z.eqb_spec (N mod 10) 9), (Z.eqb_spec ((N / 10) mod 8) 7); simpl;
    split_and!; Z.div_mod_to_equations; lia.
Qed.

(** The board after [n] runs of the hardware test, from boot. *)
Lemma hardwareTest_runs_state n junk :
  exists b,
    hardwareTest_runs n junk board_setup = Some b /\
    testHardwareSolenoidCount b = (Z.of_nat n / 10) mod 8 /\
    testHardwarePauseCount b = Z.of_nat n mod 10 /\
    shift_register_initialized b = (if n is O then 0 else 1) /\
    delayed (hw b) = 100 * Z.of_nat n + 3000 * (Z.of_nat n / 80) /\
    pin_setups (hw b) = (if n is O then 0 else 4)%nat.
Proof.
  induction n as [|n (b & E & Hc & Hp & Hi & Hd & Hs)].
  - exists board_setup. by split_and!.
  - destruct (hardwareTestLoop_step (junk n) b)
      as (b' & m & E' & _ & Hp' & Hc' & Hi' & Hhw').
    { rewrite Hc. apply Z.mod_pos_bound. lia. }
    { rewrite Hp. apply Z.mod_pos_bound. lia. }
    destruct (test_counters_next (Z.of_nat n)) as (A1 & A2 & A3); [lia|].
    exists b'. simpl. rewrite E. simpl.
    replace (Z.of_nat (S n)) with (Z.of_nat n + 1) by lia.
    rewrite Hc, Hp in *.
    split; [done|]. split; [by rewrite Hc', A2|]. split; [by rewrite Hp', A1|].
    split; [rewrite Hi', Hi; by destruct n|].
    rewrite Hhw', !delayed_app, !pin_setups_app, Hd, Hs, A3, Hi.
    split.
    + destruct n; simpl;
        destruct (_ =? 9), (_ =? 7); simpl; lia.
    + destruct n; simpl; by destruct (_ =? 9), (_ =? 7).
Qed.

Lemma last_shifted_delays l post :
  Forall (fun op => exists ms, op = Delay ms) post ->
  last_shifted (l ++ post) = last_shifted l.
Proof.
  intros Hpost. unfold last_shifted. rewrite omap_app.
  assert (E : omap (fun op => match op with
                              | ShiftOut _ _ _ v => Some v
                              | _ => None
                              end) post = []).
  { induction Hpost as [|op post [ms ->] _ IH]; [done|]. simpl. exact IH. }
  by rewrite E, app_nil_r.
Qed.

Lemma last_pwm_delays pin l post :
  Forall (fun op => exists ms, op = Delay ms) post ->
  last_pwm pin (l ++ post) = last_pwm pin l.
Proof.
  intros Hpost. unfold last_pwm. rewrite omap_app.
  assert (E : omap (fun op => match op with
                              | AnalogWrite p v => if p =? pin then Some v else None
                              | _ => None
                              end) post = []).
  { induction Hpost as [|op post [ms ->] _ IH]; [done|]. simpl. exact IH. }
  by rewrite E, app_nil_r.
Qed.

Lemma testbit_test_mask c p i :
  0 <= c < 8 -> 0 <= i < 8 ->
  Z.testbit (if p =? 0 then u8 (Z.shiftl 1 c) else 0) i = (p =? 0) && (i =? c).
Proof.
  intros Hc Hi. destruct (p =? 0); simpl; [|apply Z.bits_0].
  rewrite testbit_u8, Z.shiftl_1_l, Z.pow2_bits_eqb by lia.
  apply Z.eqb_sym.
Qed.

(** X3: the hardware test energises the solenoids in order.  In run number
    [n] from boot (counting from 0), the byte shifted out has the bit of
    channel [(n / 10) mod 8] set, and no other, if [n] is a multiple of 10,
    and is all zero in the nine runs that follow; the PWM pin of the pair
    that holds this channel is at 255 in the same run and every PWM pin is
    at 0 otherwise. *)
Theorem X3_hardwareTest_sequence (n : nat) (junk : nat -> Z) :
  exists b b' m,
    hardwareTest_runs n junk board_setup = Some b /\
    hardwareTestLoop (junk n) b = Some b' /\
    last_shifted (hw b') = Some m /\
    (forall i bit, 0 <= i < 8 -> motorBus !! Z.to_nat i = Some bit ->
       Z.testbit m bit =
         (Z.of_nat n mod 10 =? 0) && (i =? (Z.of_nat n / 10) mod 8)) /\
    (forall k pin, 0 <= k < 4 -> motorPwmPins !! Z.to_nat k = Some pin ->
       last_pwm pin (hw b') =
         Some (if (Z.of_nat n mod 10 =? 0) && (k =? (Z.of_nat n / 10) mod 8 / 2)
               then 255 else 0)).
Proof.
  destruct (hardwareTest_runs_state n junk) as (b & E & Hc & Hp & _).
  assert (Hcr : 0 <= testHardwareSolenoidCount b < 8).
  { rewrite Hc. apply Z.mod_pos_bound. lia. }
  assert (Hpr : 0 <= testHardwarePauseCount b < 10).
  { rewrite Hp. apply Z.mod_pos_bound. lia. }
  destruct (hardwareTestLoop_step (junk n) b) as (b' & m & E' & Em & _ & _ & _ & Hhw);
    try done.
  set (mask := if testHardwarePauseCount b =? 0
               then u8 (Z.shiftl 1 (testHardwareSolenoidCount b)) else 0) in *.
  assert (Hpost : Forall (fun op => exists ms, op = Delay ms)
            ((if (testHardwarePauseCount b =? 9) && (testHardwareSolenoidCount b =? 7)
              then [Delay 3000] else []) ++ [Delay 100])).
  { destruct (_ && _); repeat constructor; by eexists. }
  set (pre := hw b ++ (if shift_register_initialized b =? 0
                       then shiftWriteAll_init else [])).
  assert (Hhw2 : hw b' =
            (pre ++ output_ops mask (u8 m)) ++
            ((if (testHardwarePauseCount b =? 9) && (testHardwareSolenoidCount b =? 7)
              then [Delay 3000] else []) ++ [Delay 100])).
  { rewrite Hhw. unfold pre. by rewrite <- !app_assoc. }
  exists b, b', (u8 m). split; [done|]. split; [done|].
  rewrite Hhw2. rewrite last_shifted_delays by done.
  split; [apply last_shifted_output_ops|].
  destruct (allChannelOutput_bus_bits mask (u8 (junk n)))
    as (m0 & Em0 & H0 & H1 & H2 & H3 & H4 & H5 & H6 & H7).
  rewrite Em in Em0. injection Em0 as Em0. rewrite <- Em0 in *. clear m0 Em0.
  split.
  - intros i bit Hi Hbit. rewrite <- Hp, <- Hc.
    rewrite <- (testbit_test_mask _ _ i) by done. fold mask.
    assert (i = 0 \/ i = 1 \/ i = 2 \/ i = 3 \/ i = 4 \/ i = 5 \/ i = 6 \/ i = 7)
      as Hcases by lia.
    destruct Hcases as [->|[->|[->|[->|[->|[->|[->| ->]]]]]]];
      injection Hbit as <-; done.
  - intros k pin Hk Hpin.
    rewrite last_pwm_delays by done.
    destruct (last_pwm_output_ops pre mask (u8 m)) as (P0 & P1 & P2 & P3).
    rewrite <- Hp, <- Hc.
    assert (Hv : forall j, 0 <= j < 4 ->
              pwm_value mask j =
                if (testHardwarePauseCount b =? 0)
                   && (j =? testHardwareSolenoidCount b / 2)
                then 255 else 0).
    { intros j Hj. unfold pwm_value, mask.
      rewrite !testbit_test_mask by lia.
      destruct (testHardwarePauseCount b =? 0); simpl; [|done].
      destruct (Z.eqb_spec (2 * j) (testHardwareSolenoidCount b)),
        (Z.eqb_spec (2 * j + 1) (testHardwareSolenoidCount b)),
        (Z.eqb_spec j (testHardwareSolenoidCount b / 2)); simpl; try done;
        Z.div_mod_to_equations; lia. }
    assert (k = 0 \/ k = 1 \/ k = 2 \/ k = 3) as Hcases by lia.
    destruct Hcases as [->|[->|[->| ->]]]; injection Hpin as <-;
      rewrite <- Hv by lia; assumption.
Qed.

(** X4: the hardware test keeps time and sets the pins up once.  After [n]
    runs from boot the pause counter is [n mod 10] and the solenoid counter
    [(n / 10) mod 8], so the test repeats every 80 runs; the runs have spent
    [100 n + 3000 (n / 80)] milliseconds in [delay] (100 ms a run and three
    seconds at the end of every pass over the eight solenoids), and the
    four [pinMode] calls of [shiftWriteAll] were made in the first run and
    never again. *)
Theorem X4_hardwareTest_timing (n : nat) (junk : nat -> Z) :
  exists b,
    hardwareTest_runs n junk board_setup = Some b /\
    testHardwareSolenoidCount b = (Z.of_nat n / 10) mod 8 /\
    testHardwarePauseCount b = Z.of_nat n mod 10 /\
    delayed (hw b) = 100 * Z.of_nat n + 3000 * (Z.of_nat n / 80) /\
    pin_setups (hw b) = (if n is O then 0 else 4)%nat /\
    exists b80,
      hardwareTest_runs (n + 80) junk board_setup = Some b80 /\
      testHardwareSolenoidCount b80 = testHardwareSolenoidCount b /\
      testHardwarePauseCount b80 = testHardwarePauseCount b /\
      delayed (hw b80) = delayed (hw b) + 11000.
Proof.
  destruct (hardwareTest_runs_state n junk) as (b & E & Hc & Hp & _ & Hd & Hs).
  destruct (hardwareTest_runs_state (n + 80) junk)
    as (b80 & E80 & Hc80 & Hp80 & _ & Hd80 & _).
  exists b. split_and!; try done.
  exists b80. split; [done|].
  rewrite Hc80, Hp80, Hd80, Hc, Hp, Hd.
  replace (Z.of_nat (n + 80)) with (Z.of_nat n + 80) by lia.
  split_and!; Z.div_mod_to_equations; lia.
Qed.

(** ** One control cycle, whatever is on the line *)

Lemma processSerial_config_eeprom_tx addr cmd s s1 :
  eeprom s1 = eeprom s -> channelOnTime s1 = channelOnTime s ->
  minChannelOffTime s1 = minChannelOffTime s ->
  eeprom (processSerial_config addr cmd s1) = eeprom (processSerial_config addr cmd s) /\
  channelOnTime (processSerial_config addr cmd s1) =
    channelOnTime (processSerial_config addr cmd s) /\
  minChannelOffTime (processSerial_config addr cmd s1) =
    minChannelOffTime (processSerial_config addr cmd s).
Proof.
  intros He Hon Hoff. unfold processSerial_config.
  destruct (addr =? 255), (addr =? 254); simpl; rewrite ?He; done.
Qed.

(** The whole effect of one run of [loop()]: at most one message is
    dispatched; [s1] is the state that [listenSerial] leaves, [d] is [None]
    when no message is available in it, and else the address, the command
    and the frame of the one that is. *)
Lemma loop_effect_full t s :
  inv s ->
  exists s1 s' (d : option (Z * Z * list Z)),
    listenSerial t s = Some s1 /\ loop t s = Some s' /\ inv s' /\ deviceAddress s' = deviceAddress s /\
    match d with
    | None =>
        serialMessageAvailable s1 = 0 /\
        eeprom s' = eeprom s /\ channelOnTime s' = channelOnTime s /\
        minChannelOffTime s' = minChannelOffTime s /\
        serialTx s' = serialTx s /\
        forall j, 0 <= j < 8 ->
          channel s' j = pollExpire (millis t) (channelOnTime s') (channel s j)
    | Some (addr, cmd, frame) =>
        serialMessageAvailable s1 <> 0 /\
        readSerialByte 1 s1 = Some addr /\ readSerialByte 3 s1 = Some cmd /\
        frame = frame_of s1 /\
        0 <= addr < 256 /\ 0 <= cmd < 256 /\
        eeprom s' = eeprom (processSerial_config addr cmd s) /\
        channelOnTime s' = channelOnTime (processSerial_config addr cmd s) /\
        minChannelOffTime s' = minChannelOffTime (processSerial_config addr cmd s) /\
        serialTx s' = serialTx s ++ frame ++ [13; 10] /\
        forall j, 0 <= j < 8 ->
          channel s' j =
            pollExpire (millis t) (channelOnTime s')
              (if (addr =? deviceAddress s) && Z.testbit cmd j
               then requestOn (millis t) (minChannelOffTime s') (channel s j)
               else channel s j)
    end.
Proof.
  intros Hinv.
  destruct (loop_inv t s Hinv) as (s'' & El & Hinv').
  destruct Hinv as (Hdec & Hav & Hok & Hcfg).
  destruct (listenSerial_ok t s) as (s1 & E1 & He1 & Hd1 & Hn1 & Hdec1);
    try done.
  destruct He1 as (Fdev & Fl & Fon & Foff & Fm & Fe & Ftx).
  assert (Hok1 : chan_ok s1) by (unfold chan_ok; by rewrite Fl, Fm).
  assert (Hcfg1 : cfg_ok s1) by (unfold cfg_ok; by rewrite Fon, Foff).
  assert (Hch1 : forall j, channel s1 j = channel s j).
  { intros j. unfold channel. by rewrite Fm, Fl. }
  unfold loop in El. rewrite E1 in El. cbn [mbind option_bind] in El.
  destruct (Z.eq_dec (serialMessageAvailable s1) 0) as [Hav1|Hav1].
  - rewrite processSerial_idle in El by done. cbn [mbind option_bind] in El.
    destruct (checkResetChannels_channels t s1) as (s3 & E3 & (m3 & l3 & ->) & _ & Hc3);
      [done|destruct Hcfg1; lia|].
    rewrite E3 in El. injection El as <-.
    exists s1, (with_channels m3 l3 s1), None. split; [exact E1|].
    split; [unfold loop; rewrite E1; cbn [mbind option_bind];
            by rewrite processSerial_idle|].
    split; [done|]. split; [done|]. simpl.
    split_and!; try done.
    intros j Hj. by rewrite Hc3, Hch1.
  - destruct (processSerial_dispatch t s1)
      as (addr & cmd & s2 & Ra & Rc & Haddr & Hcmd & E2 & Hs2 & Hok2 & Hne & Heq);
      try done.
    rewrite E2 in El. cbn [mbind option_bind] in El.
    pose proof (processSerial_config_cfg_ok addr cmd s1 Hcmd Hcfg1) as [Hc1 _].
    destruct (processSerial_config_fields addr cmd s1)
      as (Gd & Gn & Ga & Gdev & Gm & Gl & Gtx & Grx).
    destruct (processSerial_config_eeprom_tx addr cmd s s1) as (Ce & Con & Coff);
      try done.
    assert (Hs2' := Hs2). destruct Hs2' as (m & l & Es2).
    assert (Hon2 : channelOnTime s2 = channelOnTime (processSerial_config addr cmd s1))
      by (by rewrite Es2).
    assert (Hoff2 : minChannelOffTime s2 =
                    minChannelOffTime (processSerial_config addr cmd s1))
      by (by rewrite Es2).
    destruct (checkResetChannels_channels t (relayed s2))
      as (s3 & E3 & (m3 & l3 & ->) & _ & Hc3); [done|simpl; lia|].
    rewrite E3 in El. injection El as <-.
    exists s1, (with_channels m3 l3 (relayed s2)), (Some (addr, cmd, frame_of s1)).
    split; [exact E1|].
    split; [unfold loop; rewrite E1; cbn [mbind option_bind];
            rewrite E2; cbn [mbind option_bind]; exact E3|].
    split; [done|]. split; [simpl; rewrite Es2; simpl; congruence|].
    split; [done|]. split; [done|]. split; [done|]. split; [done|].
    split; [done|]. split; [done|]. simpl.
    split; [rewrite Es2; simpl; congruence|].
    split; [congruence|]. split; [congruence|].
    split.
    { unfold frame_of. rewrite Es2. simpl. by rewrite Gtx, Gd, Gn, Ftx. }
    intros j Hj. rewrite Hc3 by done.
    change (channel (relayed s2) j) with (channel s2 j).
    change (channelOnTime (relayed s2)) with (channelOnTime s2).
    rewrite <- Fdev.
    destruct (Z.eqb_spec addr (deviceAddress s1)) as [Hd|Hd]; simpl.
    + by rewrite Heq, Hch1 by done.
    + rewrite (Hne Hd). unfold channel. by rewrite Gm, Gl, Fm, Fl.
Qed.

Lemma loop_effect t s :
  inv s ->
  exists s' (d : option (Z * Z * list Z)),
    loop t s = Some s' /\ inv s' /\ deviceAddress s' = deviceAddress s /\
    match d with
    | None =>
        eeprom s' = eeprom s /\ channelOnTime s' = channelOnTime s /\
        minChannelOffTime s' = minChannelOffTime s /\
        serialTx s' = serialTx s /\
        forall j, 0 <= j < 8 ->
          channel s' j = pollExpire (millis t) (channelOnTime s') (channel s j)
    | Some (addr, cmd, frame) =>
        0 <= addr < 256 /\ 0 <= cmd < 256 /\
        eeprom s' = eeprom (processSerial_config addr cmd s) /\
        channelOnTime s' = channelOnTime (processSerial_config addr cmd s) /\
        minChannelOffTime s' = minChannelOffTime (processSerial_config addr cmd s) /\
        serialTx s' = serialTx s ++ frame ++ [13; 10] /\
        forall j, 0 <= j < 8 ->
          channel s' j =
            pollExpire (millis t) (channelOnTime s')
              (if (addr =? deviceAddress s) && Z.testbit cmd j
               then requestOn (millis t) (minChannelOffTime s') (channel s j)
               else channel s j)
    end.
Proof.
  intros Hinv.
  destruct (loop_effect_full t s Hinv) as (s1 & s' & d & _ & El & Hinv' & Hdev & Hd).
  exists s', d. split; [done|]. split; [done|]. split; [done|].
  destruct d as [[[addr cmd] frame]|].
  - by destruct Hd as (_ & _ & _ & _ & Hd).
  - by destruct Hd as (_ & Hd).
Qed.



(** ** The configuration across power cycles *)






(** ** The whole of [loop()] *)

(** X7: one run of [loop()] in normal operation ends by driving the shield
    with the channel states the same run has just computed: the byte in the
    shift register has bit [motorBus[i]] set exactly when channel [i] is
    energized after the requests and the expiries of this run, and each PWM
    pin is at 255 exactly when one of its two channels is.  With
    [HARDWARE_TEST] set, the run leaves the serial line and every global of
    the controller alone. *)
Theorem X7_loop_drives_shield (t junk : Z) (s : State) (b : Board) :
  inv s ->
  exists s' b' m,
    sketch_loop 0 t junk (s, b) = Some (s', b') /\ loop t s = Some s' /\
    last_shifted (hw b') = Some m /\
    (forall i bit, 0 <= i < 8 -> motorBus !! Z.to_nat i = Some bit ->
       Z.testbit m bit = (channel s' i).1) /\
    (forall i pin, 0 <= i < 4 -> motorPwmPins !! Z.to_nat i = Some pin ->
       last_pwm pin (hw b') =
         Some (if (channel s' (2 * i)).1 || (channel s' (2 * i + 1)).1
               then 255 else 0)) /\
    (forall HT b1, HT <> 0 ->
       0 <= testHardwareSolenoidCount b1 < 8 -> 0 <= testHardwarePauseCount b1 < 10 ->
       exists b2, sketch_loop HT t junk (s, b1) = Some (s, b2)).
Proof.
  intros Hinv. destruct (loop_inv t s Hinv) as (s' & El & _).
  destruct (allChannelOutput_trace (channelOnBitmask s') junk b) as (m & Em & E).
  destruct (allChannelOutput_bus_bits (channelOnBitmask s') (u8 junk))
    as (m0 & Em0 & H0 & H1 & H2 & H3 & H4 & H5 & H6 & H7).
  rewrite Em in Em0. injection Em0 as Em0. rewrite <- Em0 in *. clear m0 Em0.
  eexists s', _, (u8 m). split_and!.
  - unfold sketch_loop. cbn [negb Z.eqb fst snd]. rewrite El.
    cbn [mbind option_bind]. unfold updateActiveChannels. rewrite E. reflexivity.
  - exact El.
  - apply last_shifted_output_ops.
  - intros i bit Hi Hbit. cbn [channel fst].
    assert (i = 0 \/ i = 1 \/ i = 2 \/ i = 3 \/ i = 4 \/ i = 5 \/ i = 6 \/ i = 7)
      as Hcases by lia.
    destruct Hcases as [->|[->|[->|[->|[->|[->|[->| ->]]]]]]];
      injection Hbit as <-; done.
  - intros i pin Hi Hpin. cbn [channel fst].
    assert (i = 0 \/ i = 1 \/ i = 2 \/ i = 3) as Hcases by lia.
    match goal with |- last_pwm _ (hw (hw_call _ ?b0)) = _ =>
      destruct (last_pwm_output_ops (hw b0) (channelOnBitmask s') (u8 m))
        as (P0 & P1 & P2 & P3)
    end.
    destruct Hcases as [->|[->|[->| ->]]]; injection Hpin as <-; assumption.
  - intros HT b1 Hne Hc Hp.
    destruct (hardwareTestLoop_step junk b1 Hc Hp) as (b2 & ? & Eh & _).
    exists b2. unfold sketch_loop.
    destruct (Z.eqb_spec HT 0); [done|].
    cbn [negb fst snd]. rewrite Eh. reflexivity.
Qed.

Lemma X7_loop_drives_shield_witness :
  inv (receive (bytes "<0004>") (setup 0 erased)) /\
  exists s' b',
    sketch_loop 0 1000 0 (receive (bytes "<0004>") (setup 0 erased), board_setup)
      = Some (s', b') /\
    channel s' 2 = (true, 1000) /\ last_shifted (hw b') = Some 2.
Proof.
  split; [apply receive_inv, setup_inv|].
  destruct (X7_loop_drives_shield 1000 0 (receive (bytes "<0004>") (setup 0 erased))
              board_setup (receive_inv _ _ (setup_inv 0 erased)))
    as (s' & b' & m & E & _).
  exists s', b'. split; [exact E|].
  vm_compute in E. injection E as <- <-. split; reflexivity.
Defined.

(** ** Bytes between frames *)

Lemma listenSerial_while_noise t pre : forall c bs s,
  serialMessageActive s = 0 -> Forall (fun c => u8 c <> 60) (c :: pre) ->
  listenSerial_while t (c :: pre ++ bs) s =
  listenSerial_while t bs
    (set_serialNextChar (u8 (default c (list.last pre)))
       (set_serialLastTime (millis t) (set_serialRx bs s))).
Proof.
  induction pre as [|c2 pre IH]; intros c bs s Ha Hn;
    inversion Hn as [|? ? Hc Hn']; subst.
  - cbn [app]. rewrite listenSerial_while_cons.
    rewrite listenSerial_body_ignored by done.
    cbn [mbind option_bind]. reflexivity.
  - cbn [app]. rewrite listenSerial_while_cons.
    rewrite listenSerial_body_ignored by done.
    cbn [mbind option_bind]. rewrite IH by done.
    rewrite last_cons. by destruct (list.last pre).
Qed.

Lemma listenSerial_noise t pre bs s :
  serialRx s = [] -> serialMessageActive s = 0 ->
  Forall (fun c => u8 c <> 60) pre ->
  listenSerial t (receive (pre ++ bs) s) = listenSerial t (receive bs (noise_seen t pre s)).
Proof.
  intros Hrx Ha Hn. destruct pre as [|c pre]; [done|].
  unfold listenSerial, noise_seen. rewrite last_cons.
  destruct s; cbn [serialRx serialMessageActive] in Hrx, Ha; subst.
  unfold receive. cbn [serialRx set_serialRx app].
  rewrite listenSerial_while_noise by done.
  by destruct (list.last pre).
Qed.

Lemma noise_seen_fields t pre s :
  (inv s -> inv (noise_seen t pre s)) /\
  serialMessageActive (noise_seen t pre s) = serialMessageActive s /\
  serialMessageLength (noise_seen t pre s) = serialMessageLength s /\
  serialRx (noise_seen t pre s) = serialRx s /\
  same_engine s (noise_seen t pre s) /\
  forall j, channel (noise_seen t pre s) j = channel s j.
Proof. unfold noise_seen. by destruct (list.last pre). Qed.

Lemma receive_pending s : receive (serialRx s) (set_serialRx [] s) = s.
Proof. by destruct s. Qed.

(** A cycle in which only bytes that are no begin marker arrive while the
    decoder listens. *)
Lemma loop_noise t noise s :
  inv s -> serialMessageActive s = 0 -> serialRx s = [] ->
  Forall (fun c => u8 c <> 60) noise ->
  exists s', loop t (receive noise s) = Some s' /\ inv s' /\
    serialMessageActive s' = 0 /\ serialMessageLength s' = 0 /\
    serialRx s' = [] /\ serialTx s' = serialTx s /\ eeprom s' = eeprom s /\
    channelOnTime s' = channelOnTime s /\
    minChannelOffTime s' = minChannelOffTime s /\
    forall j, 0 <= j < 8 ->
      channel s' j = pollExpire (millis t) (channelOnTime s) (channel s j).
Proof.
  intros Hinv Ha Hrx Hn.
  destruct (loop_inv t (receive noise s) (receive_inv _ _ Hinv)) as (s' & El & Hinv').
  exists s'. split; [done|]. split; [done|].
  assert (El2 : loop t (receive [] (noise_seen t noise s)) = Some s').
  { rewrite <- El. unfold loop.
    by rewrite <- (listenSerial_noise t noise [] s), app_nil_r by done. }
  destruct (noise_seen_fields t noise s) as (Hi & Ea & El0 & Er & He & Hc).
  set (s1 := receive [] (noise_seen t noise s)) in *.
  assert (Hrx1 : serialRx s1 = []).
  { unfold s1, receive. cbn [serialRx set_serialRx]. by rewrite Er, Hrx. }
  destruct (Hi Hinv) as ((Hlen & Hml & Hact) & Hav & Hok & Hcfg).
  destruct (loop_idle t s1) as (s'' & El3 & (m & l & Es) & _ & Hch); try done.
  { destruct Hcfg. change (channelOnTime s1) with (channelOnTime (noise_seen t noise s)).
    lia. }
  rewrite El2 in El3. injection El3 as <-.
  destruct He as (_ & _ & Eon & Eoff & _ & Eee & Etx).
  assert (Hl0 : serialMessageLength s = 0) by (destruct Hinv as ((_ & _ & H0) & _); auto).
  assert (Hch' : forall j, 0 <= j < 8 ->
            channel s' j = pollExpire (millis t) (channelOnTime s) (channel s j)).
  { intros j Hj. rewrite Hch by done.
    change (channelOnTime s1) with (channelOnTime (noise_seen t noise s)).
    change (channel s1 j) with (channel (noise_seen t noise s) j).
    by rewrite Eon, Hc. }
  clear Hch.
  split_and!; [| | | | | | |exact Hch']; rewrite Es; unfold timeout_reset.
  - destruct (_ >? _); [done|]. cbn. by rewrite Ea.
  - destruct (_ >? _); [done|]. cbn. by rewrite El0.
  - by destruct (_ >? _).
  - destruct (_ >? _); cbn; by rewrite Etx.
  - destruct (_ >? _); cbn; by rewrite Eee.
  - destruct (_ >? _); cbn; by rewrite Eon.
  - destruct (_ >? _); cbn; by rewrite Eoff.
Qed.

(** X8: bytes other than the begin marker that arrive while the decoder
    listens (the CR and LF that end every relayed frame, a stray end marker)
    are read and dropped.  A cycle that reads only such bytes relays nothing,
    stores nothing in the buffer, changes no setting, and only lets channels
    expire; and such bytes in front of anything else change nothing in how
    the cycle handles what follows them, [serialNextChar] and
    [serialLastTime] apart. *)
Theorem X8_noise_between_frames (t : Z) (noise bs : list Z) (s : State) :
  inv s -> serialMessageActive s = 0 -> serialRx s = [] ->
  Forall (fun c => u8 c <> 60) noise ->
  loop t (receive (noise ++ bs) s) = loop t (receive bs (noise_seen t noise s)) /\
  exists s', loop t (receive noise s) = Some s' /\
    serialTx s' = serialTx s /\ serialRx s' = [] /\
    serialMessageActive s' = 0 /\ serialMessageLength s' = 0 /\
    eeprom s' = eeprom s /\ channelOnTime s' = channelOnTime s /\
    minChannelOffTime s' = minChannelOffTime s /\
    forall j, 0 <= j < 8 ->
      channel s' j = pollExpire (millis t) (channelOnTime s) (channel s j).
Proof.
  intros Hinv Ha Hrx Hn. split.
  - unfold loop. by rewrite listenSerial_noise.
  - destruct (loop_noise t noise s) as (s' & El & _ & ? & ? & ? & ? & ? & ? & ? & ?);
      try done.
    exists s'. by split_and!.
Qed.

Lemma X8_noise_between_frames_witness :
  (inv (setup 0 erased) /\ serialMessageActive (setup 0 erased) = 0 /\
   serialRx (setup 0 erased) = [] /\ Forall (fun c => u8 c <> 60) [13; 10]) /\
  loop 1000 (receive ([13; 10] ++ bytes "<0004>") (setup 0 erased)) =
    loop 1000 (receive (bytes "<0004>") (noise_seen 1000 [13; 10] (setup 0 erased))).
Proof.
  assert (Hn : Forall (fun c => u8 c <> 60) [13; 10]).
  { repeat constructor; by vm_compute. }
  split; [split_and!; [apply setup_inv|reflexivity|reflexivity|exact Hn]|].
  exact (proj1 (X8_noise_between_frames 1000 [13; 10] (bytes "<0004>") (setup 0 erased)
                  (setup_inv 0 erased) eq_refl eq_refl Hn)).
Defined.

(** ** Frames back to back *)

Lemma println_frames_cons body fs :
  println_frames (body :: fs) = 60 :: body ++ 62 :: [13; 10] ++ println_frames fs.
Proof. unfold println_frames. simpl. by rewrite <- app_assoc. Qed.

Lemma cycles_println_frames gaps : forall t fs pre s,
  inv s -> serialMessageActive s = 0 -> serialRx s = [] ->
  Forall (fun c => u8 c <> 60) pre ->
  Forall (fun body => Forall (fun c => 0 <= c < 256 /\ c <> 62) body /\
                      (length body <= 30)%nat) fs ->
  exists s', idle_cycles t gaps (receive (pre ++ println_frames fs) s) = Some s' /\
    serialTx s' = serialTx s ++ println_frames (take (length gaps) fs) /\
    inv s' /\ serialMessageActive s' = 0 /\
    ((length fs < length gaps)%nat \/ (pre = [] /\ fs = []) -> serialRx s' = []).
Proof.
  induction gaps as [|d gaps IH]; intros t fs pre s Hinv Ha Hrx Hpre Hfs.
  - eexists. split; [reflexivity|]. split_and!.
    + cbn. by rewrite app_nil_r.
    + by apply receive_inv.
    + done.
    + intros [Hlt|[-> ->]]; [simpl in Hlt; lia|].
      unfold receive. cbn. by rewrite Hrx.
  - destruct fs as [|body fs].
    + change (println_frames []) with (@nil Z). rewrite app_nil_r.
      destruct (loop_noise (t + d) pre s) as (s1 & El & Hinv1 & Ha1 & _ & Hrx1 & Htx1 & _);
        try done.
      pose proof (receive_pending s1) as E. rewrite Hrx1 in E.
      destruct (IH (t + d) [] [] (set_serialRx [] s1)) as (s' & Ec & Htx & Hinv' & Ha' & Hr');
        try done.
      change (receive ([] ++ println_frames []) (set_serialRx [] s1))
        with (receive [] (set_serialRx [] s1)) in Ec.
      rewrite E in Ec.
      exists s'. split_and!; try done.
      * cbn [idle_cycles]. rewrite El. exact Ec.
      * rewrite Htx. rewrite !take_nil. cbn [serialTx set_serialRx]. by rewrite Htx1.
      * intros _. apply Hr'. by right.
    + inversion Hfs as [|? ? [Hbody Hlen] Hfs']; subst.
      rewrite println_frames_cons.
      assert (Eq : loop (t + d)
                (receive (pre ++ 60 :: body ++ 62 :: [13; 10] ++ println_frames fs) s) =
              loop (t + d)
                (receive (60 :: body ++ 62 :: [13; 10] ++ println_frames fs)
                   (noise_seen (t + d) pre s))).
      { unfold loop. by rewrite listenSerial_noise. }
      destruct (noise_seen_fields (t + d) pre s) as (Hi & Ea & _ & Er & He & _).
      destruct (loop_frame (t + d) body ([13; 10] ++ println_frames fs)
                  (noise_seen (t + d) pre s))
        as (_ & _ & s1 & _ & _ & _ & _ & El & Htx1 & Hrx1 & Ha1 & Hinv1);
        try done; try (by rewrite ?Ea, ?Er); try (by apply Hi).
      pose proof (receive_pending s1) as E. rewrite Hrx1 in E.
      destruct (IH (t + d) fs [13; 10] (set_serialRx [] s1))
        as (s' & Ec & Htx & Hinv' & Ha' & Hr'); try done.
      { repeat constructor; by vm_compute. }
      rewrite E in Ec.
      exists s'. split_and!; try done.
      * cbn [idle_cycles]. rewrite Eq, El. exact Ec.
      * rewrite Htx. cbn [serialTx set_serialRx length take]. rewrite Htx1.
        destruct He as (_ & _ & _ & _ & _ & _ & ->).
        rewrite println_frames_cons, take_ge by done.
        rewrite <- !app_assoc. cbn [app]. rewrite <- app_assoc. reflexivity.
      * intros [Hlt|[_ ?]]; [|done]. apply Hr'. left. simpl in Hlt. lia.
Qed.

(** X9: frames that wait in the receive buffer one behind the other, each
    followed by CR and LF, are taken one per run of [loop()]: after [k] runs
    exactly the first [k] of them have been sent on, in order and byte for
    byte as they came (bodies of at most 30 bytes), and once there have been
    more runs than frames the buffer is empty and the whole input has been
    sent on unchanged, so a chain of slaves is transparent. *)
Theorem X9_frames_one_per_cycle (t : Z) (gaps : list Z) (fs : list (list Z))
    (s : State) :
  inv s -> serialMessageActive s = 0 -> serialRx s = [] ->
  Forall (fun body => Forall (fun c => 0 <= c < 256 /\ c <> 62) body /\
                      (length body <= 30)%nat) fs ->
  exists s', idle_cycles t gaps (receive (println_frames fs) s) = Some s' /\
    serialTx s' = serialTx s ++ println_frames (take (length gaps) fs) /\
    inv s' /\ serialMessageActive s' = 0 /\
    ((length fs < length gaps)%nat ->
     serialRx s' = [] /\ serialTx s' = serialTx s ++ println_frames fs).
Proof.
  intros Hinv Ha Hrx Hfs.
  destruct (cycles_println_frames gaps t fs [] s) as (s' & E & Htx & Hinv' & Ha' & Hr');
    try done.
  exists s'. split_and!; try done.
  intros Hlt. split; [apply Hr'; by left|].
  rewrite Htx, take_ge by lia. reflexivity.
Qed.

Lemma X9_frames_one_per_cycle_witness :
  Forall (fun body => Forall (fun c => 0 <= c < 256 /\ c <> 62) body /\
                      (length body <= 30)%nat) [bytes "0004"; bytes "0108"] /\
  exists s', idle_cycles 1000 [10; 10; 10]
               (receive (println_frames [bytes "0004"; bytes "0108"]) (setup 0 erased))
             = Some s' /\
    serialRx s' = [] /\
    serialTx s' = println_frames [bytes "0004"; bytes "0108"].
Proof.
  assert (Hfs : Forall (fun body => Forall (fun c => 0 <= c < 256 /\ c <> 62) body /\
                          (length body <= 30)%nat) [bytes "0004"; bytes "0108"]).
  { repeat first [constructor | split]; vm_compute; congruence. }
  split; [exact Hfs|].
  destruct (X9_frames_one_per_cycle 1000 [10; 10; 10] [bytes "0004"; bytes "0108"]
              (setup 0 erased) (setup_inv 0 erased) eq_refl eq_refl Hfs)
    as (s' & E & _ & _ & _ & Hend).
  exists s'. split; [exact E|].
  destruct Hend as [Hrx Htx]; [simpl; lia|].
  split; [exact Hrx|exact Htx].
Defined.

(** ** The master's encoder and the slave's decoder *)







(** ** The rotary encoder and the display of the master *)

Lemma sent_app l1 l2 : sent (l1 ++ l2) = sent l1 ++ sent l2.
Proof. apply omap_app. Qed.

Lemma sent_Tx bs : sent (map Tx bs) = bs.
Proof.
  induction bs as [|b bs IH]; [done|].
  change (sent (map Tx (b :: bs))) with (b :: sent (map Tx bs)). by rewrite IH.
Qed.

Lemma commands_app l1 l2 : commands (l1 ++ l2) = commands l1 ++ commands l2.
Proof. unfold commands. by rewrite map_app, concat_app. Qed.

Lemma sent_playNote a c :
  sent (playNote a c) = commands [(a, Z.shiftl 1 (u8 c)); (a, 0)].
Proof.
  unfold playNote, commands. rewrite !sent_app, !sent_Tx.
  cbn. by rewrite !app_nil_r.
Qed.

Lemma rotaryUp_count r :
  0 <= rotaryCount r <= totalChannels - 1 ->
  rotaryCount (rotaryUp r) = Z.min (rotaryCount r + 1) (totalChannels - 1).
Proof.
  unfold totalChannels, MOTOR_SHIELD_COUNT. intros H. unfold rotaryUp.
  cbn [rotaryCount]. rewrite int16_small by lia.
  unfold totalChannels, MOTOR_SHIELD_COUNT.
  destruct (Z.gtb_spec (rotaryCount r + 1) (8 * 4 - 1)); lia.
Qed.

Lemma rotaryDown_count r :
  0 <= rotaryCount r <= totalChannels - 1 ->
  rotaryCount (rotaryDown r) = Z.max (rotaryCount r - 1) 0.
Proof.
  unfold totalChannels, MOTOR_SHIELD_COUNT. intros H. unfold rotaryDown.
  cbn [rotaryCount]. rewrite int16_small by lia.
  destruct (Z.ltb_spec (rotaryCount r - 1) 0); lia.
Qed.

Lemma updateLcdMotorShield_selection r :
  0 <= rotaryCount r <= totalChannels - 1 ->
  selectedChannel (updateLcdMotorShield r) = rotaryCount r mod 8 /\
  selectedShield (updateLcdMotorShield r) = rotaryCount r / 8.
Proof.
  unfold totalChannels, MOTOR_SHIELD_COUNT. intros H.
  unfold updateLcdMotorShield. cbn [selectedChannel selectedShield].
  pose proof (Z.mod_pos_bound (rotaryCount r) 8 ltac:(lia)) as Hm.
  pose proof (Z.div_mod (rotaryCount r) 8 ltac:(lia)) as Hdm.
  rewrite Z.rem_mod_nonneg by lia.
  rewrite (u8_small (rotaryCount r mod 8)) by lia.
  rewrite int16_small by lia.
  rewrite Z.quot_div_nonneg by lia.
  replace (rotaryCount r - rotaryCount r mod 8) with (rotaryCount r / 8 * 8) by lia.
  rewrite Z.div_mul by lia.
  split; [done|]. apply u8_small. lia.
Qed.

Lemma rotary_event_ok r e : rotary_ok r -> rotary_ok (rotary_event r e).
Proof.
  intros (Hc & Hs & Hch & Hdis & cmds & Hsent & Hcmds).
  assert (Hline : exists cmds, sent (line r) = commands cmds /\
                               Forall single_channel_command cmds)
    by (by exists cmds).
  destruct e as [p|p| | |]; cbn [rotary_event].
  - unfold PinA. rewrite Hdis. cbn [Z.eqb negb].
    destruct (_ && _).
    + pose proof (rotaryUp_count (set_reading (u8 (Z.land p 12)) r) Hc) as E.
      unfold rotary_ok. cbn [rotaryCount selectedShield selectedChannel
                             rotaryDisabled line set_flags set_reading rotaryUp] in *.
      rewrite E. split_and!; first [done | lia].
    + destruct (_ =? 4); unfold rotary_ok;
        cbn [rotaryCount selectedShield selectedChannel rotaryDisabled line
             set_flags set_reading];
        split_and!; first [done | lia].
  - unfold PinB. rewrite Hdis. cbn [Z.eqb negb].
    destruct (_ && _).
    + pose proof (rotaryDown_count (set_reading (u8 (Z.land p 12)) r) Hc) as E.
      unfold rotary_ok. cbn [rotaryCount selectedShield selectedChannel
                             rotaryDisabled line set_flags set_reading rotaryDown] in *.
      rewrite E. split_and!; first [done | lia].
    + destruct (_ =? 8); unfold rotary_ok;
        cbn [rotaryCount selectedShield selectedChannel rotaryDisabled line
             set_flags set_reading];
        split_and!; first [done | lia].
  - unfold rotary_ok, rotaryClick.
    cbn [rotaryCount selectedShield selectedChannel rotaryDisabled line].
    split_and!; try done; try lia.
    exists (cmds ++ [(selectedShield r, Z.shiftl 1 (u8 (selectedChannel r)));
                     (selectedShield r, 0);
                     (selectedShield r, Z.shiftl 1 (u8 (selectedChannel r)));
                     (selectedShield r, 0);
                     (selectedShield r, Z.shiftl 1 (u8 (selectedChannel r)));
                     (selectedShield r, 0)]).
    split.
    + unfold testNote. rewrite !sent_app, !sent_playNote, Hsent, <- !commands_app.
      reflexivity.
    + apply Forall_app. split; [done|].
      assert (Hon : single_channel_command
                      (selectedShield r, Z.shiftl 1 (u8 (selectedChannel r)))).
      { split; [done|]. right. exists (selectedChannel r). split; [done|].
        cbn [snd]. rewrite u8_small by lia. rewrite Z.shiftl_1_l. reflexivity. }
      assert (Hoff : single_channel_command (selectedShield r, 0)).
      { split; [done|]. by left. }
      repeat (apply Forall_cons; [done|]). apply Forall_nil.
  - unfold rotary_ok, rotaryLongPress.
    cbn [rotaryCount selectedShield selectedChannel rotaryDisabled line].
    unfold totalChannels, MOTOR_SHIELD_COUNT in *.
    split_and!; first [done | lia].
  - destruct (updateLcdMotorShield_selection r Hc) as [E1 E2].
    unfold rotary_ok. rewrite E1, E2.
    unfold totalChannels, MOTOR_SHIELD_COUNT in *.
    pose proof (Z.mod_pos_bound (rotaryCount r) 8 ltac:(lia)).
    cbn [rotaryCount rotaryDisabled line updateLcdMotorShield].
    split_and!; try done; try lia.
    + apply Z.div_pos; lia.
    + apply Z.div_lt_upper_bound; lia.
Qed.

Lemma rotary_run_ok es : rotary_ok (rotary_run es).
Proof.
  unfold rotary_run.
  assert (H0 : rotary_ok rotary_setup).
  { unfold rotary_ok. cbn. split_and!; try done. by exists []. }
  revert H0. generalize rotary_setup.
  induction es as [|e es IH]; intros r Hr; [done|].
  cbn [fold_left]. apply IH. by apply rotary_event_ok.
Qed.

(** X11: whatever the user does with the encoder and its button, in any
    order, the counter of the master stays between 0 and 31, the selection
    shown and used is one of the four boards and one of its eight channels,
    and all that the master has sent is a sequence of
    [sendMotorShieldCommand] frames, each for one of the four boards and
    each with the zero mask or a single channel; and a refresh of the
    display splits the counter into board and channel, [8 * board + channel]
    being the counter. *)
Theorem X11_rotary_selection (es : list RotaryEvent) :
  0 <= rotaryCount (rotary_run es) <= 31 /\
  0 <= selectedShield (rotary_run es) < 4 /\
  0 <= selectedChannel (rotary_run es) < 8 /\
  (exists cmds, sent (line (rotary_run es)) = commands cmds /\
                Forall single_channel_command cmds) /\
  rotaryCount (updateLcdMotorShield (rotary_run es)) = rotaryCount (rotary_run es) /\
  8 * selectedShield (updateLcdMotorShield (rotary_run es)) +
    selectedChannel (updateLcdMotorShield (rotary_run es)) = rotaryCount (rotary_run es).
Proof.
  destruct (rotary_run_ok es) as (Hc & Hs & Hch & _ & Hcmds).
  destruct (updateLcdMotorShield_selection _ Hc) as [E1 E2].
  unfold totalChannels, MOTOR_SHIELD_COUNT in *.
  split_and!; try done; try lia.
  rewrite E1, E2.
  pose proof (Z.div_mod (rotaryCount (rotary_run es)) 8 ltac:(lia)). lia.
Qed.

(** ** The length of a pulse, whatever the master sends *)

(** A channel that is on, in one run of [loop()]: what arrives on the line
    does not matter to it, only the time since it went on and the pulse
    length in force at the end of the run. *)
Lemma loop_on_channel t T0 j s :
  inv s -> 0 <= j < 8 -> channel s j = (true, millis T0) ->
  0 <= t - T0 < 2 ^ 32 ->
  exists s', loop t s = Some s' /\ inv s' /\
    channel s' j = if t - T0 >? channelOnTime s' then (false, millis t)
                   else (true, millis T0).
Proof.
  intros Hinv Hj Hc Ht.
  destruct (loop_effect t s Hinv) as (s' & d & El & Hinv' & _ & Hd).
  exists s'. split; [done|]. split; [done|].
  assert (E : channel s' j = pollExpire (millis t) (channelOnTime s') (channel s j)).
  { destruct d as [[[addr cmd] frame]|].
    - destruct Hd as (_ & _ & _ & _ & _ & _ & Hch). rewrite Hch by done.
      unfold requestOn. rewrite Hc. cbn [fst negb andb].
      by destruct (_ && _).
    - destruct Hd as (_ & _ & _ & _ & Hch). by rewrite Hch. }
  rewrite E, Hc. unfold pollExpire. cbn [fst snd andb].
  by rewrite millis_elapsed.
Qed.

Lemma cycles_pulse T0 delta i :
  0 <= i < 8 -> 0 <= delta -> 2550 + delta < 2 ^ 32 ->
  forall traffic e s,
    inv s -> channel s i = (true, millis T0) -> 0 <= e <= 2550 ->
    Forall (fun c => 0 <= c.1 <= delta) traffic ->
    2550 < e + duration traffic ->
    exists tr1 tr2 s1,
      traffic = tr1 ++ tr2 /\ e + duration tr1 <= 2550 + delta /\
      cycles (T0 + e) tr1 s = Some s1 /\ (channel s1 i).1 = false /\ inv s1.
Proof.
  intros Hi Hdelta Hbound.
  induction traffic as [|[d bs] traffic IH]; intros e s Hinv Hc He Hgaps Hdur.
  - simpl in Hdur. lia.
  - inversion Hgaps as [|? ? Hd Hgaps']; subst. cbn [fst] in Hd.
    cbn [duration foldr fst] in Hdur. fold (duration traffic) in Hdur.
    destruct (loop_on_channel (T0 + e + d) T0 i (receive bs s))
      as (s' & El & Hinv' & Hc'); try done; try lia; try (by apply receive_inv).
    destruct Hinv' as (Hdec' & Hav' & Hok' & Hcfg').
    assert (Hinv' : inv s') by done.
    destruct (Z.gtb_spec (T0 + e + d - T0) (channelOnTime s')) as [Hoff|Hon].
    + exists [(d, bs)], traffic, s'. split_and!; try done.
      * cbn. lia.
      * cbn [cycles]. rewrite El. reflexivity.
      * by rewrite Hc'.
    + destruct Hcfg' as [Hcfg' _].
      destruct (IH (e + d) s') as (tr1 & tr2 & s1 & -> & Hd1 & Ec & Hoff1 & Hinv1);
        try done; try lia.
      exists ((d, bs) :: tr1), tr2, s1. split_and!; try done.
      * cbn [duration foldr fst]. fold (duration tr1). lia.
      * cbn [cycles]. rewrite El. cbn [mbind option_bind].
        by rewrite <- Z.add_assoc.
Qed.

(** X12: no traffic on the line keeps a channel energized.  If channel [i]
    is on since [T0] and the control cycles come at most [delta]
    milliseconds apart, then whatever bytes arrive before each of them (on
    commands for the channel, configuration commands, noise), the channel is
    switched off by a cycle that runs no later than [2550 + delta]
    milliseconds after [T0], 2550 ms being the longest pulse that can be
    configured. *)
Theorem X12_pulse_bounded_under_traffic (T0 delta i : Z)
    (traffic : list (Z * list Z)) (s : State) :
  inv s -> 0 <= i < 8 -> channel s i = (true, millis T0) ->
  0 <= delta -> 2550 + delta < 2 ^ 32 ->
  Forall (fun c => 0 <= c.1 <= delta) traffic ->
  2550 < duration traffic ->
  exists tr1 tr2 s1,
    traffic = tr1 ++ tr2 /\ duration tr1 <= 2550 + delta /\
    cycles T0 tr1 s = Some s1 /\ (channel s1 i).1 = false /\ inv s1.
Proof.
  intros Hinv Hi Hc Hdelta Hbound Hgaps Hdur.
  destruct (cycles_pulse T0 delta i Hi Hdelta Hbound traffic 0 s)
    as (tr1 & tr2 & s1 & E & Hd & Ec & Hoff & Hinv1); try done; try lia.
  exists tr1, tr2, s1. rewrite Z.add_0_r in Ec. split_and!; first [done | lia].
Qed.

Lemma X12_pulse_bounded_under_traffic_witness :
  (inv channel2_on /\ channel channel2_on 2 = (true, millis 100) /\
   Forall (fun c => 0 <= c.1 <= 1000)
     [(1000, bytes "<0004>"); (1000, bytes "<FFFF>"); (1000, [])] /\
   2550 < duration [(1000, bytes "<0004>"); (1000, bytes "<FFFF>"); (1000, [])]) /\
  exists tr1 tr2 s1,
    [(1000, bytes "<0004>"); (1000, bytes "<FFFF>"); (1000, [])] = tr1 ++ tr2 /\
    cycles 100 tr1 channel2_on = Some s1 /\ (channel s1 2).1 = false.
Proof.
  assert (Hinv : inv channel2_on).
  { unfold inv, dec_ok, chan_ok, cfg_ok. by vm_compute. }
  assert (Hg : Forall (fun c : Z * list Z => 0 <= c.1 <= 1000)
                 [(1000, bytes "<0004>"); (1000, bytes "<FFFF>"); (1000, [])]).
  { repeat (apply Forall_cons; [by vm_compute|]). apply Forall_nil. }
  split; [split_and!; [exact Hinv|reflexivity|exact Hg|by vm_compute]|].
  destruct (X12_pulse_bounded_under_traffic 100 1000 2
              [(1000, bytes "<0004>"); (1000, bytes "<FFFF>"); (1000, [])]
              channel2_on Hinv ltac:(lia) eq_refl ltac:(lia) ltac:(lia) Hg
              ltac:(by vm_compute))
    as (tr1 & tr2 & s1 & E & _ & Ec & Hoff & _).
  exists tr1, tr2, s1. by split_and!.
Defined.

(** ** The first command after a reset *)



